(** * Video game sales analysis (video_game_analysis.py)

    A shallow embedding of the PySpark pipeline of
    [src/video_game_analysis.py]: the loader [load_sales_data] and the
    analyzer [analyze_publisher_sales], over a small model of the Spark
    DataFrame operators the script calls (filter, groupBy/agg, sum,
    round, orderBy, limit, first, count) and of the Python values it
    handles (None, exceptions, printed lines).

    A DataFrame is a list of rows in table order.  SQL NULL is [None].
    The double precision numbers of the engine are an interface
    ([DoubleOps]): the pipeline only adds them, rounds them and compares
    them, and every theorem below holds for any implementation of that
    interface.  Concrete runs use [Milli.decimal], exact decimals with
    three fractional digits. *)

From Stdlib Require Import List ZArith String Ascii Bool Lia.
From Stdlib Require Import Permutation Sorted Decimal DecimalString.
Import ListNotations.

Set Implicit Arguments.

(** ** The engine's numbers *)

(** What the script asks of a DoubleType column: a zero to start a sum,
    addition, [round(x, scale)] and the order that [orderBy] sorts by.
    The order is Spark's total order on doubles. *)
Class DoubleOps (D : Type) : Type := {
  dzero : D;
  dadd : D -> D -> D;
  dround : Z -> D -> D;
  dleb : D -> D -> bool;
  dleb_total : forall x y, dleb x y = true \/ dleb y x = true;
  dleb_trans : forall x y z, dleb x y = true -> dleb y z = true -> dleb x z = true
}.

(** Exact decimals with three fractional digits, held as a number of
    thousandths: 125 is 0.125.  [round] is HALF_UP, away from zero on
    a tie, as in Spark. *)
Module Milli.

Definition pow10 (n : Z) : Z := Z.pow 10 n.

Definition half_up (scale : Z) (x : Z) : Z :=
  if (3 <=? scale)%Z then x
  else
    let u := pow10 (3 - scale) in
    (Z.sgn x * (((2 * Z.abs x + u) / (2 * u)) * u))%Z.

#[export] Instance decimal : DoubleOps Z := {|
  dzero := 0%Z;
  dadd := Z.add;
  dround := half_up;
  dleb := Z.leb;
  dleb_total := fun x y =>
    match Z.leb_spec x y with
    | BoolSpecT _ H => or_introl (proj2 (Z.leb_le x y) H)
    | BoolSpecF _ H => or_intror (proj2 (Z.leb_le y x) (Z.lt_le_incl _ _ H))
    end;
  dleb_trans := fun x y z H1 H2 =>
    proj2 (Z.leb_le x z)
      (Z.le_trans _ _ _ (proj1 (Z.leb_le x y) H1) (proj1 (Z.leb_le y z) H2))
|}.

End Milli.

(** ** Python values *)

Module Py.

(** An exception: its class and its message. *)
Inductive Exception : Type :=
| Exc (cls : string) (msg : string).

Definition exc_class (e : Exception) : string :=
  match e with Exc c _ => c end.

(** A call either returns a value or raises. *)
Inductive Result (A : Type) : Type :=
| Returned (a : A)
| Raised (e : Exception).
Arguments Raised {A} e.

(** [None["publisher"]]: subscripting None. *)
Definition NoneType_not_subscriptable : Exception :=
  Exc "TypeError" "'NoneType' object is not subscriptable".

(** [row[name]] for the row that [first()] gave: [first()] is None on
    an empty DataFrame, and None cannot be subscripted. *)
Definition getitem {R V : Type} (row : option R) (column : R -> V) : Result V :=
  match row with
  | Some r => Returned (column r)
  | None => Raised NoneType_not_subscriptable
  end.

(** [str(n)] for a non-negative int. *)
Definition str_int (n : nat) : string :=
  NilZero.string_of_uint (Nat.to_uint n).

(** [str(s)] for a value that is a string or None. *)
Definition str_opt (s : option string) : string :=
  match s with Some x => x | None => "None" end.

End Py.

(** ** Spark SQL: NULL, three-valued logic, DataFrame operators *)

Module Spark.

(** A DateType value, as a calendar date. *)
Record Date : Type := { date_year : Z; date_month : Z; date_day : Z }.

(** [year(col)]: the calendar year, NULL for a NULL date. *)
Definition year (d : option Date) : option Z := option_map date_year d.

(** Comparisons give NULL when an operand is NULL. *)
Definition sql_ge (a : option Z) (b : Z) : option bool :=
  option_map (fun x => (b <=? x)%Z) a.

Definition sql_le (a : option Z) (b : Z) : option bool :=
  option_map (fun x => (x <=? b)%Z) a.

(** [col == value]; a Python None on the right is the NULL literal. *)
Definition sql_eq (a b : option string) : option bool :=
  match a, b with
  | Some x, Some y => Some (String.eqb x y)
  | _, _ => None
  end.

(** [&] on columns: Kleene conjunction. *)
Definition sql_and (a b : option bool) : option bool :=
  match a, b with
  | Some false, _ | _, Some false => Some false
  | Some true, Some true => Some true
  | _, _ => None
  end.

(** [isNull()] is never NULL itself. *)
Definition isNull {A : Type} (a : option A) : option bool :=
  match a with None => Some true | Some _ => Some false end.

(** A row passes a filter when the condition is true: false and NULL
    both drop it. *)
Definition holds (c : option bool) : bool :=
  match c with Some true => true | _ => false end.

Definition filter {R : Type} (cond : R -> option bool) (df : list R) : list R :=
  List.filter (fun r => holds (cond r)) df.

Definition count {R : Type} (df : list R) : nat := List.length df.

Definition limit {R : Type} (n : nat) (df : list R) : list R := firstn n df.

(** [first()]: the first row, or None. *)
Definition first {R : Type} (df : list R) : option R := hd_error df.

(** [sum]: the aggregation buffer starts NULL; a NULL input leaves it
    as it is, a value is added to the buffer (to zero when the buffer
    is still NULL).  Rows are met in table order. *)
Definition sum_step {D : Type} `{DoubleOps D} (buf : option D) (x : option D) : option D :=
  match x with
  | None => buf
  | Some v => Some (dadd (match buf with Some s => s | None => dzero end) v)
  end.

Definition sum {D : Type} `{DoubleOps D} (column : list (option D)) : option D :=
  fold_left sum_step column None.

(** The test for a column value that is not NULL. *)
Definition is_value {A : Type} (x : option A) : bool :=
  match x with Some _ => true | None => false end.

(** [round(col, scale)]: NULL stays NULL. *)
Definition round {D : Type} `{DoubleOps D} (x : option D) (scale : Z) : option D :=
  option_map (dround scale) x.

(** Grouping keys: NULL is a key of its own, equal to itself. *)
Definition key_eqb {K : Type} (eqb : K -> K -> bool) (a b : option K) : bool :=
  match a, b with
  | Some x, Some y => eqb x y
  | None, None => true
  | _, _ => false
  end.

(** The keys of a column, each once, in order of first appearance. *)
Fixpoint distinct {K : Type} (eqb : K -> K -> bool) (keys : list K) : list K :=
  match keys with
  | [] => []
  | k :: rest => k :: List.filter (fun k' => negb (eqb k k')) (distinct eqb rest)
  end.

(** [groupBy(key)]: one group per key, holding its rows in table order. *)
Definition groupBy {R K : Type} (eqb : K -> K -> bool) (key : R -> K)
    (df : list R) : list (K * list R) :=
  map (fun k => (k, List.filter (fun r => eqb k (key r)) df))
      (distinct eqb (map key df)).

(** Sort orders: [precedes a b] says that key [a] may come before key
    [b].  Ascending puts NULL first, descending puts NULL last. *)
Definition asc (a b : option Z) : bool :=
  match a, b with
  | None, _ => true
  | Some _, None => false
  | Some x, Some y => (x <=? y)%Z
  end.

Definition desc {D : Type} `{DoubleOps D} (a b : option D) : bool :=
  match a, b with
  | _, None => true
  | None, Some _ => false
  | Some x, Some y => dleb y x
  end.

(** What [orderBy] promises: the same rows, in an order that respects
    the keys.  Rows with equal keys may come out in any order. *)
Definition ordered_by {R K : Type} (precedes : K -> K -> bool) (key : R -> K)
    (df sorted : list R) : Prop :=
  Permutation df sorted /\
  StronglySorted (fun a b => precedes (key a) (key b) = true) sorted.

(** One such order, computed: insertion of each row before the first
    row it may precede, which keeps rows with equal keys in table
    order. *)
Fixpoint insert {R K : Type} (precedes : K -> K -> bool) (key : R -> K)
    (r : R) (sorted : list R) : list R :=
  match sorted with
  | [] => [r]
  | r' :: rest =>
      if precedes (key r) (key r') then r :: r' :: rest
      else r' :: insert precedes key r rest
  end.

Definition orderBy {R K : Type} (precedes : K -> K -> bool) (key : R -> K)
    (df : list R) : list R :=
  fold_right (insert precedes key) [] df.

End Spark.

(** ** The script *)

Section VideoGameAnalysis.

Context {D : Type} `{DoubleOps D}.

(** [define_schema]: the twelve columns of the file, all nullable. *)
Record Schema : Type := {
  csv_title : option string;
  csv_publisher : option string;
  csv_developer : option string;
  csv_release_date : option Spark.Date;
  csv_platform : option string;
  csv_total_sales : option D;
  csv_na_sales : option D;
  csv_japan_sales : option D;
  csv_pal_sales : option D;
  csv_other_sales : option D;
  csv_user_score : option D;
  csv_critic_score : option D
}.

(** The session, as far as the script uses it: reading a
    pipe-separated file with a header under the schema. *)
Record SparkSession : Type := { read_csv : string -> list Schema }.

(** A row of [salesDF]: the four required columns. *)
Record SalesRow : Type := {
  publisher : option string;
  release_date : option Spark.Date;
  na_sales : option D;
  total_sales : option D
}.

Definition required_columns (r : Schema) : SalesRow :=
  {| publisher := csv_publisher r;
     release_date := csv_release_date r;
     na_sales := csv_na_sales r;
     total_sales := csv_total_sales r |}.

Definition load_sales_data (spark : SparkSession) (file_path : string) : list SalesRow :=
  map required_columns (read_csv spark file_path).

(** A row of [sales0615DF]: the sales row and its [year] column. *)
Record YearRow : Type := { sale : SalesRow; year : option Z }.

Definition withColumn_year (r : SalesRow) : YearRow :=
  {| sale := r; year := Spark.year (release_date r) |}.

Definition sales0615DF (salesDF : list SalesRow) : list YearRow :=
  Spark.filter
    (fun r => Spark.sql_and (Spark.sql_ge (year r) 2006) (Spark.sql_le (year r) 2015))
    (map withColumn_year salesDF).

(** A row of the per-publisher aggregation. *)
Record PublisherTotal : Type := {
  pt_publisher : option string;
  total_na_sales : option D
}.

Definition publisher_eqb : option string -> option string -> bool :=
  Spark.key_eqb String.eqb.

Definition year_eqb : option Z -> option Z -> bool :=
  Spark.key_eqb Z.eqb.

(** [groupBy("publisher").agg(sum("na_sales").alias("total_na_sales"))] *)
Definition publisherTotals (sales0615 : list YearRow) : list PublisherTotal :=
  map (fun g =>
         {| pt_publisher := fst g;
            total_na_sales := Spark.sum (map (fun r => na_sales (sale r)) (snd g)) |})
      (Spark.groupBy publisher_eqb (fun r => publisher (sale r)) sales0615).

(** [sales0615DF.filter(col("publisher") == bestNAPublisher)] *)
Definition bestNADF (sales0615 : list YearRow) (bestNAPublisher : option string)
    : list YearRow :=
  Spark.filter (fun r => Spark.sql_eq (publisher (sale r)) bestNAPublisher) sales0615.

(** [bestNADF.filter(col("na_sales").isNull()).count()] *)
Definition titlesWithMissingSalesData (bestNA : list YearRow) : nat :=
  Spark.count (Spark.filter (fun r => Spark.isNull (na_sales (sale r))) bestNA).

(** A row of the yearly table. *)
Record YearlyAggregate : Type := {
  ya_year : option Z;
  na_total : option D;
  global_total : option D
}.

(** [groupBy("year").agg(round(sum("na_sales"), 2), round(sum("total_sales"), 2))] *)
Definition yearlyTotals (bestNA : list YearRow) : list YearlyAggregate :=
  map (fun g =>
         {| ya_year := fst g;
            na_total := Spark.round (Spark.sum (map (fun r => na_sales (sale r)) (snd g))) 2;
            global_total :=
              Spark.round (Spark.sum (map (fun r => total_sales (sale r)) (snd g))) 2 |})
      (Spark.groupBy year_eqb year bestNA).

(** [... .orderBy("year")] *)
Definition bestNAPublisherSales (bestNA : list YearRow) : list YearlyAggregate :=
  Spark.orderBy Spark.asc ya_year (yearlyTotals bestNA).

(** What the script writes to standard output: a printed line, or the
    rows of a rendered table. *)
Inductive Output : Type :=
| Print (line : string)
| Table (rows : list YearlyAggregate).

(** [df.show()] renders the first 20 rows of the table. *)
Definition show (df : list YearlyAggregate) : Output :=
  Table (Spark.limit 20 df).

(** One run: what was written, and what the call returned or raised. *)
Record Execution : Type := {
  stdout : list Output;
  result : Py.Result (option string * list YearlyAggregate)
}.

Definition publisher_line (bestNAPublisher : option string) : string :=
  ("The publisher with the highest total video game sales in North America is: '"
     ++ Py.str_opt bestNAPublisher ++ "'")%string.

Definition missing_line (n : nat) : string :=
  ("The number of titles with missing sales data for North America: "
     ++ Py.str_int n)%string.

Definition sales_line : string := "Sales data for the publisher:".

(** The script from [limit(1)] on, given the per-publisher totals in
    the order [orderBy] left them. *)
Definition analyze_ordered (sales0615 : list YearRow) (ordered : list PublisherTotal)
    : Execution :=
  let bestPublisherDF := Spark.limit 1 ordered in
  match Py.getitem (Spark.first (map pt_publisher bestPublisherDF)) (fun v => v) with
  | Py.Raised e => {| stdout := []; result := Py.Raised e |}
  | Py.Returned bestNAPublisher =>
      let bestNA := bestNADF sales0615 bestNAPublisher in
      let missing := titlesWithMissingSalesData bestNA in
      let yearly := bestNAPublisherSales bestNA in
      {| stdout := [Print (publisher_line bestNAPublisher);
                    Print (missing_line missing);
                    Print sales_line;
                    show yearly];
         result := Py.Returned (bestNAPublisher, yearly) |}
  end.

(** [analyze_publisher_sales], with the engine sorting stably. *)
Definition analyze_publisher_sales (spark : SparkSession) (file_path : string)
    : Execution :=
  let salesDF := load_sales_data spark file_path in
  let sales0615 := sales0615DF salesDF in
  analyze_ordered sales0615
    (Spark.orderBy Spark.desc total_na_sales (publisherTotals sales0615)).

(** Every run the engine may make: [orderBy] on the totals fixes the
    order only up to equal totals, the rest of the script is a function
    of that order.  (The yearly table has one row per year, so its
    [orderBy] has one possible result, see [ordered_by_unique].) *)
Definition spark_run (spark : SparkSession) (file_path : string) (e : Execution)
    : Prop :=
  let sales0615 := sales0615DF (load_sales_data spark file_path) in
  exists ordered,
    Spark.ordered_by Spark.desc total_na_sales (publisherTotals sales0615) ordered /\
    e = analyze_ordered sales0615 ordered.

End VideoGameAnalysis.

Arguments Schema D : clear implicits.
Arguments SparkSession D : clear implicits.
Arguments SalesRow D : clear implicits.
Arguments YearRow D : clear implicits.
Arguments PublisherTotal D : clear implicits.
Arguments YearlyAggregate D : clear implicits.
Arguments Output D : clear implicits.
Arguments Execution D : clear implicits.

(** ** The script run as a program *)

Section Main.

Context {D : Type} `{DoubleOps D}.

Definition app_name : string := "Video Game Sales Analysis".

Definition file_csv : string :=
  "abfss://shared@tunics320f2024gen2.dfs.core.windows.net/assignment/sales/video_game_sales.csv".

(** What the process does that can be seen from outside: it gets a
    session from the builder, writes to standard output, stops the
    session. *)
Inductive Event : Type :=
| GetOrCreate (appName : string)
| Stdout (o : Output D)
| Stop.

(** A run of the process: its events, and whether it came to its end
    or died of an exception nobody caught. *)
Record Process : Type := {
  events : list Event;
  exit : Py.Result unit
}.

(** The [__main__] block around one run of the analysis: the value the
    analysis returns is dropped, [spark.stop()] comes after the call and
    there is no [try], so an exception of the call ends the process
    before it. *)
Definition main_after (e : Execution D) : Process :=
  match result e with
  | Py.Returned _ =>
      {| events := GetOrCreate app_name :: map Stdout (stdout e) ++ [Stop];
         exit := Py.Returned tt |}
  | Py.Raised ex =>
      {| events := GetOrCreate app_name :: map Stdout (stdout e);
         exit := Py.Raised ex |}
  end.

(** The [__main__] block, with the engine sorting stably. *)
Definition main (getOrCreate : string -> SparkSession D) : Process :=
  let spark := getOrCreate app_name in
  main_after (analyze_publisher_sales spark file_csv).

(** Every run of the program the engine may make. *)
Definition main_run (getOrCreate : string -> SparkSession D) (p : Process) : Prop :=
  let spark := getOrCreate app_name in
  exists e, spark_run spark file_csv e /\ p = main_after e.

End Main.

Arguments Event D : clear implicits.
Arguments Process D : clear implicits.

(** ** What the results are compared with *)

Section Specification.

Context {D : Type} `{DoubleOps D}.

(** The analysis window, said of a row of the input: it has a release
    date, and the calendar year of that date is 2006 to 2015. *)
Definition in_window (r : SalesRow D) : bool :=
  match release_date r with
  | Some d => (2006 <=? Spark.date_year d)%Z && (Spark.date_year d <=? 2015)%Z
  | None => false
  end.

(** A row whose release date has a year outside 2006 to 2015. *)
Definition outside_window (r : SalesRow D) : Prop :=
  exists d, release_date r = Some d /\
            (Spark.date_year d < 2006 \/ 2015 < Spark.date_year d)%Z.

(** Two tables that differ only in rows outside the window. *)
Inductive differ_outside : list (SalesRow D) -> list (SalesRow D) -> Prop :=
| differ_nil : differ_outside [] []
| differ_same r t1 t2 :
    differ_outside t1 t2 -> differ_outside (r :: t1) (r :: t2)
| differ_left r t1 t2 :
    outside_window r -> differ_outside t1 t2 -> differ_outside (r :: t1) t2
| differ_right r t1 t2 :
    outside_window r -> differ_outside t1 t2 -> differ_outside t1 (r :: t2).

(** The rows of a publisher group; the NULL publisher is a group. *)
Definition in_group (k : option string) (r : SalesRow D) : bool :=
  publisher_eqb k (publisher r).

(** A group's total: the sum of na_sales over its rows in the window. *)
Definition group_total (table : list (SalesRow D)) (k : option string) : option D :=
  Spark.sum (map na_sales (List.filter (fun r => in_window r && in_group k r) table)).

(** [k] is a publisher of the window whose total no other publisher's
    total comes strictly before in descending order. *)
Definition top_publisher (table : list (SalesRow D)) (k : option string) : Prop :=
  (exists r, In r table /\ in_window r = true /\ publisher r = k) /\
  forall r, In r table -> in_window r = true ->
            Spark.desc (group_total table k) (group_total table (publisher r)) = true.

Definition unique_top (table : list (SalesRow D)) : Prop :=
  forall k1 k2, top_publisher table k1 -> top_publisher table k2 -> k1 = k2.

(** The rows whose publisher equals [p]; nothing equals NULL. *)
Definition published_by (p : option string) (r : SalesRow D) : bool :=
  match publisher r, p with
  | Some a, Some b => String.eqb a b
  | _, _ => false
  end.

(** The subset S of step 5: the rows of the window published by [p]. *)
Definition subset_S (table : list (SalesRow D)) (p : option string) : list (SalesRow D) :=
  List.filter (fun r => in_window r && published_by p r) table.

Definition released_in (y : Z) (r : SalesRow D) : bool :=
  match release_date r with
  | Some d => (Spark.date_year d =? y)%Z
  | None => false
  end.

Definition year_rows (y : Z) (rows : list (SalesRow D)) : list (SalesRow D) :=
  List.filter (released_in y) rows.

(** The yearly row that step 7 asks for year [y] of the rows [rows]. *)
Definition yearly_row (rows : list (SalesRow D)) (y : Z) : YearlyAggregate D :=
  {| ya_year := Some y;
     na_total := Spark.round (Spark.sum (map na_sales (year_rows y rows))) 2;
     global_total := Spark.round (Spark.sum (map total_sales (year_rows y rows))) 2 |}.

(** The number of rows of S with a NULL na_sales. *)
Definition missing_in (rows : list (SalesRow D)) : nat :=
  List.length (List.filter (fun r => negb (Spark.is_value (na_sales r))) rows).

(** The run ended in an exception of its own for "nothing found". *)
Definition signals_not_found (e : Execution D) : Prop :=
  exists ex, result e = Py.Raised ex /\
             (Py.exc_class ex = "NotFound"%string \/
              Py.exc_class ex = "EmptyResultError"%string).

(** The run ended in the TypeError of subscripting None, having
    written nothing. *)
Definition crashed_on_missing_row : Execution D :=
  {| stdout := []; result := Py.Raised Py.NoneType_not_subscriptable |}.

(** What a run wrote and returned when [first()] gave a row: three
    printed lines and the table, and the pair returned to the caller. *)
Definition reported (bp : option string) (missing : nat)
    (yearly : list (YearlyAggregate D)) : Execution D :=
  {| stdout := [Print (publisher_line bp); Print (missing_line missing);
                Print sales_line; show yearly];
     result := Py.Returned (bp, yearly) |}.

(** Two lines of the file that agree on the four required columns. *)
Definition same_required (a b : Schema D) : Prop :=
  csv_publisher a = csv_publisher b /\
  csv_release_date a = csv_release_date b /\
  csv_na_sales a = csv_na_sales b /\
  csv_total_sales a = csv_total_sales b.

End Specification.

(** ** Tables to run the script on *)

Module Examples.

Import Milli.

Definition date (y : Z) : option Spark.Date :=
  Some {| Spark.date_year := y; Spark.date_month := 6; Spark.date_day := 15 |}.

(** A line of the file; the columns the analysis drops are left empty. *)
Definition line (p : option string) (d : option Spark.Date) (na total : option Z)
    : Schema Z :=
  {| csv_title := None; csv_publisher := p; csv_developer := None;
     csv_release_date := d; csv_platform := None;
     csv_total_sales := total; csv_na_sales := na;
     csv_japan_sales := None; csv_pal_sales := None; csv_other_sales := None;
     csv_user_score := None; csv_critic_score := None |}.

Definition session (file : list (Schema Z)) : SparkSession Z :=
  {| read_csv := fun _ => file |}.

Definition path : string := "video_game_sales.csv".

(** An empty file. *)
Definition empty_file : list (Schema Z) := [].

(** A: 10 in 2007 and 20 in 2008; B: 5 in 2009; C: 100 in 2020. *)
Definition three_publishers : list (Schema Z) :=
  [ line (Some "A") (date 2007) (Some 10000) (Some 12000);
    line (Some "A") (date 2008) (Some 20000) (Some 25000);
    line (Some "B") (date 2009) (Some 5000) (Some 6000);
    line (Some "C") (date 2020) (Some 100000) (Some 100000) ]%Z%string.

(** The same without C, and with a row of 2005 instead. *)
Definition three_publishers' : list (Schema Z) :=
  [ line (Some "A") (date 2007) (Some 10000) (Some 12000);
    line (Some "B") (date 2005) (Some 70000) (Some 70000);
    line (Some "A") (date 2008) (Some 20000) (Some 25000);
    line (Some "B") (date 2009) (Some 5000) (Some 6000) ]%Z%string.

(** A: na_sales NULL, total 15 in 2010; na_sales 7, total 8 in 2011. *)
Definition missing_na : list (Schema Z) :=
  [ line (Some "A") (date 2010) None (Some 15000);
    line (Some "A") (date 2011) (Some 7000) (Some 8000) ]%Z%string.

(** A and B both have 1.0 in North America. *)
Definition tie : list (Schema Z) :=
  [ line (Some "A") (date 2007) (Some 1000) (Some 2000);
    line (Some "B") (date 2008) (Some 1000) (Some 3000) ]%Z%string.

(** A: 0.125 in 2007 and 0.125 in 2008. *)
Definition eighths : list (Schema Z) :=
  [ line (Some "A") (date 2007) (Some 125) (Some 125);
    line (Some "A") (date 2008) (Some 125) (Some 125) ]%Z%string.

(** One row, of 2020. *)
Definition only_2020 : list (Schema Z) :=
  [ line (Some "C") (date 2020) (Some 100000) (Some 100000) ]%Z%string.

(** The yearly table the script gives for [missing_na]. *)
Definition missing_na_yearly : list (YearlyAggregate Z) :=
  [ {| ya_year := Some 2010; na_total := None; global_total := Some 15000 |};
    {| ya_year := Some 2011; na_total := Some 7000; global_total := Some 8000 |} ]%Z.

(** The yearly table the script gives for [three_publishers]. *)
Definition three_publishers_yearly : list (YearlyAggregate Z) :=
  [ {| ya_year := Some 2007; na_total := Some 10000; global_total := Some 12000 |};
    {| ya_year := Some 2008; na_total := Some 20000; global_total := Some 25000 |} ]%Z.

(** The yearly table the script gives for [eighths]: 0.13 each year. *)
Definition eighths_yearly : list (YearlyAggregate Z) :=
  [ {| ya_year := Some 2007; na_total := Some 130; global_total := Some 130 |};
    {| ya_year := Some 2008; na_total := Some 130; global_total := Some 130 |} ]%Z.

(** The per-publisher totals of [tie]. *)
Definition tie_A : PublisherTotal Z :=
  {| pt_publisher := Some "A"%string; total_na_sales := Some 1000%Z |}.

Definition tie_B : PublisherTotal Z :=
  {| pt_publisher := Some "B"%string; total_na_sales := Some 1000%Z |}.

(** The rows without a publisher sell most. *)
Definition no_publisher : list (Schema Z) :=
  [ line None (date 2008) None (Some 9000);
    line (Some "A") (date 2007) (Some 1000) (Some 1000);
    line None (date 2009) (Some 8000) (Some 9000) ]%Z%string.

(** The lines of [three_publishers] with the other columns filled in. *)
Definition titled (title : string) (score : Z) (l : Schema Z) : Schema Z :=
  {| csv_title := Some title; csv_publisher := csv_publisher l;
     csv_developer := Some "Studio"%string;
     csv_release_date := csv_release_date l;
     csv_platform := Some "PC"%string;
     csv_total_sales := csv_total_sales l; csv_na_sales := csv_na_sales l;
     csv_japan_sales := Some 1000%Z; csv_pal_sales := Some 2000%Z;
     csv_other_sales := None;
     csv_user_score := Some score; csv_critic_score := Some score |}.

Definition three_publishers_titled : list (Schema Z) :=
  map (titled "Game" 8500) three_publishers.

(** [missing_na] with a line that has no release date in between. *)
Definition missing_na_undated : list (Schema Z) :=
  [ line (Some "A") (date 2010) None (Some 15000);
    line (Some "B") None (Some 90000) (Some 90000);
    line (Some "A") (date 2011) (Some 7000) (Some 8000) ]%Z%string.

(** A has no figure for North America, B has a negative one. *)
Definition no_figure : list (Schema Z) :=
  [ line (Some "A") (date 2010) None (Some 15000);
    line (Some "B") (date 2011) (Some (-1000)) (Some 8000) ]%Z%string.

End Examples.

(** ** Facts about the DataFrame operators *)

Module SparkFacts.

Import Spark.

Lemma holds_true (c : option bool) : holds c = true <-> c = Some true.
Proof.
  destruct c as [[|]|]; simpl; split; intro E; try reflexivity; discriminate E.
Qed.

Lemma filter_rows_In {R : Type} (cond : R -> option bool) (df : list R) (r : R) :
  In r (filter cond df) <-> In r df /\ cond r = Some true.
Proof.
  unfold filter. rewrite filter_In, holds_true. reflexivity.
Qed.

(** Filtering twice is filtering by the conjunction. *)
Lemma filter_twice {A : Type} (f g : A -> bool) (l : list A) :
  List.filter f (List.filter g l) = List.filter (fun x => g x && f x) l.
Proof.
  induction l as [|a l IH]; simpl; [reflexivity|].
  destruct (g a); simpl; rewrite IH; reflexivity.
Qed.

Lemma filter_map_comm {A B : Type} (f : A -> B) (p : B -> bool) (l : list A) :
  List.filter p (map f l) = map f (List.filter (fun x => p (f x)) l).
Proof.
  induction l as [|a l IH]; simpl; [reflexivity|].
  destruct (p (f a)); simpl; rewrite IH; reflexivity.
Qed.

Section Sum.

Context {D : Type} `{DoubleOps D}.

Lemma sum_fold_skips_null (column : list (option D)) (buf : option D) :
  fold_left sum_step column buf =
  fold_left sum_step (List.filter is_value column) buf.
Proof.
  revert buf. induction column as [|x column IH]; intro buf; simpl.
  - reflexivity.
  - destruct x as [v|]; simpl; apply IH.
Qed.

Lemma sum_app_null (before after : list (option D)) :
  sum (before ++ None :: after) = sum (before ++ after).
Proof.
  unfold sum. rewrite !fold_left_app. reflexivity.
Qed.

Lemma sum_step_null_buf (column : list (option D)) :
  (forall x, In x column -> x = None) ->
  forall buf, fold_left sum_step column buf = buf.
Proof.
  induction column as [|x column IH]; intros Hall buf; simpl.
  - reflexivity.
  - rewrite (Hall x (or_introl eq_refl)). simpl.
    apply IH. intros y Hy. apply Hall. right. exact Hy.
Qed.

Lemma sum_all_null (column : list (option D)) :
  (forall x, In x column -> x = None) -> sum column = None.
Proof.
  intro Hall. unfold sum. apply sum_step_null_buf. exact Hall.
Qed.

End Sum.

Section Keys.

Variable K : Type.
Variable eqb : K -> K -> bool.
Hypothesis eqb_eq : forall a b, eqb a b = true <-> a = b.

Lemma distinct_In (keys : list K) (k : K) :
  In k (distinct eqb keys) <-> In k keys.
Proof.
  induction keys as [|a keys IH]; simpl; [reflexivity|].
  rewrite List.filter_In, IH. split.
  - intros [E|[Hin _]]; [left|right]; assumption.
  - intros [E|Hin]; [left; exact E|].
    destruct (eqb a k) eqn:Eak.
    + left. apply eqb_eq. exact Eak.
    + right. split; [exact Hin|reflexivity].
Qed.

Lemma NoDup_filter_keep {A : Type} (p : A -> bool) (l : list A) :
  NoDup l -> NoDup (List.filter p l).
Proof.
  induction 1 as [|a l Hnotin Hnd IH]; simpl; [constructor|].
  destruct (p a); [|exact IH].
  constructor; [|exact IH].
  intro Hin. apply Hnotin. apply List.filter_In in Hin. apply Hin.
Qed.

Lemma distinct_NoDup (keys : list K) : NoDup (distinct eqb keys).
Proof.
  induction keys as [|a keys IH]; simpl; constructor.
  - intro Hin. apply List.filter_In in Hin. destruct Hin as [_ Hneq].
    assert (Eaa : eqb a a = true) by (apply eqb_eq; reflexivity).
    rewrite Eaa in Hneq. discriminate Hneq.
  - apply NoDup_filter_keep. exact IH.
Qed.

Variable R : Type.
Variable key : R -> K.

Lemma groupBy_keys (df : list R) :
  map fst (groupBy eqb key df) = distinct eqb (map key df).
Proof.
  unfold groupBy. rewrite map_map. simpl. apply map_id.
Qed.

Lemma groupBy_In (df : list R) (k : K) (rows : list R) :
  In (k, rows) (groupBy eqb key df) <->
  In k (map key df) /\ rows = List.filter (fun r => eqb k (key r)) df.
Proof.
  unfold groupBy. rewrite in_map_iff. split.
  - intros [k' [E Hin]]. inversion E; subst. split; [|reflexivity].
    apply distinct_In. exact Hin.
  - intros [Hin E]. exists k. subst rows. split; [reflexivity|].
    apply distinct_In. exact Hin.
Qed.

(** A group is never empty: it holds the row its key came from. *)
Lemma group_nonempty (df : list R) (k : K) :
  In k (map key df) -> exists r, In r (List.filter (fun r => eqb k (key r)) df).
Proof.
  intro Hin. apply in_map_iff in Hin. destruct Hin as [r [E Hr]].
  exists r. apply List.filter_In. split; [exact Hr|].
  apply eqb_eq. symmetry. exact E.
Qed.

End Keys.

Section Sorting.

Variables R K : Type.
Variable precedes : K -> K -> bool.
Variable key : R -> K.
Hypothesis precedes_total : forall a b, precedes a b = true \/ precedes b a = true.
Hypothesis precedes_trans :
  forall a b c, precedes a b = true -> precedes b c = true -> precedes a c = true.

Let before (a b : R) : Prop := precedes (key a) (key b) = true.

Lemma insert_perm (r : R) (l : list R) :
  Permutation (r :: l) (insert precedes key r l).
Proof.
  induction l as [|r' l IH]; simpl.
  - apply Permutation_refl.
  - destruct (precedes (key r) (key r')).
    + apply Permutation_refl.
    + apply perm_trans with (r' :: r :: l).
      * apply perm_swap.
      * apply perm_skip. exact IH.
Qed.

Lemma orderBy_perm (df : list R) : Permutation df (orderBy precedes key df).
Proof.
  induction df as [|r df IH]; simpl.
  - apply perm_nil.
  - apply perm_trans with (r :: orderBy precedes key df).
    + apply perm_skip. exact IH.
    + apply insert_perm.
Qed.

Lemma insert_sorted (r : R) (l : list R) :
  StronglySorted before l -> StronglySorted before (insert precedes key r l).
Proof.
  induction 1 as [|r' l Hs IH Hall]; simpl.
  - constructor; constructor.
  - destruct (precedes (key r) (key r')) eqn:E.
    + constructor.
      * constructor; assumption.
      * constructor; [exact E|].
        apply Forall_impl with (P := before r'); [|exact Hall].
        intros x Hx. unfold before in *. eapply precedes_trans; eassumption.
    + constructor; [exact IH|].
      apply Forall_forall. intros x Hx.
      apply (Permutation_in x (Permutation_sym (insert_perm r l))) in Hx.
      destruct Hx as [Ex|Hx].
      * subst x. unfold before.
        destruct (precedes_total (key r) (key r')) as [T|T]; [|exact T].
        rewrite T in E. discriminate E.
      * rewrite Forall_forall in Hall. apply Hall. exact Hx.
Qed.

Lemma orderBy_sorted (df : list R) : StronglySorted before (orderBy precedes key df).
Proof.
  induction df as [|r df IH]; simpl.
  - constructor.
  - apply insert_sorted. exact IH.
Qed.

(** The computed order is one of the orders [orderBy] may give. *)
Lemma orderBy_ordered_by (df : list R) :
  ordered_by precedes key df (orderBy precedes key df).
Proof.
  split; [apply orderBy_perm|apply orderBy_sorted].
Qed.

Lemma ordered_by_nil (df : list R) : ordered_by precedes key df [] -> df = [].
Proof.
  intros [Hp _]. apply Permutation_sym in Hp. apply Permutation_nil. exact Hp.
Qed.

Lemma ordered_by_nonempty (df : list R) (r : R) :
  In r df -> ordered_by precedes key df [] -> False.
Proof.
  intros Hin Ho. apply ordered_by_nil in Ho. subst df. exact Hin.
Qed.

(** The first row after [orderBy] may precede every row of the table. *)
Lemma ordered_by_head (df : list R) (top : R) (rest : list R) :
  ordered_by precedes key df (top :: rest) ->
  In top df /\ forall r, In r df -> precedes (key top) (key r) = true.
Proof.
  intros [Hp Hs]. split.
  - apply (Permutation_in top (Permutation_sym Hp)). left. reflexivity.
  - intros r Hr. apply (Permutation_in r Hp) in Hr.
    destruct Hr as [E|Hr].
    + subst r. destruct (precedes_total (key top) (key top)); assumption.
    + inversion Hs as [|? ? _ Hall]; subst.
      rewrite Forall_forall in Hall. apply Hall. exact Hr.
Qed.

(** Where no two rows may precede each other, [orderBy] has one result. *)
Lemma sorted_perm_unique (l1 l2 : list R) :
  (forall a b, In a l1 -> In b l1 ->
               precedes (key a) (key b) = true ->
               precedes (key b) (key a) = true -> a = b) ->
  StronglySorted before l1 -> StronglySorted before l2 ->
  Permutation l1 l2 -> l1 = l2.
Proof.
  revert l2. induction l1 as [|a l1 IH]; intros l2 Hanti Hs1 Hs2 Hp.
  - apply Permutation_nil in Hp. subst l2. reflexivity.
  - destruct l2 as [|b l2].
    + apply Permutation_sym, Permutation_nil in Hp. discriminate Hp.
    + inversion Hs1 as [|? ? Hs1' Hall1]; subst.
      inversion Hs2 as [|? ? Hs2' Hall2]; subst.
      rewrite Forall_forall in Hall1, Hall2.
      assert (Eab : a = b).
      { assert (Ha : In a (b :: l2)) by (apply (Permutation_in a Hp); left; reflexivity).
        assert (Hb : In b (a :: l1))
          by (apply (Permutation_in b (Permutation_sym Hp)); left; reflexivity).
        destruct Ha as [E|Ha]; [symmetry; exact E|].
        destruct Hb as [E|Hb]; [exact E|].
        apply Hanti.
        - left. reflexivity.
        - right. exact Hb.
        - apply Hall1. exact Hb.
        - apply Hall2. exact Ha. }
      subst b. f_equal.
      apply IH.
      * intros x y Hx Hy. apply Hanti; right; assumption.
      * exact Hs1'.
      * exact Hs2'.
      * apply Permutation_cons_inv with a. exact Hp.
Qed.

End Sorting.

End SparkFacts.

(** ** Facts about the script *)

Section AnalysisFacts.

Context {D : Type} `{DoubleOps D}.

Lemma publisher_eqb_eq (a b : option string) : publisher_eqb a b = true <-> a = b.
Proof.
  destruct a as [x|], b as [y|]; simpl; split; intro E;
    try reflexivity; try discriminate E.
  - apply String.eqb_eq in E. subst y. reflexivity.
  - inversion E. apply String.eqb_refl.
Qed.

Lemma year_eqb_eq (a b : option Z) : year_eqb a b = true <-> a = b.
Proof.
  destruct a as [x|], b as [y|]; simpl; split; intro E;
    try reflexivity; try discriminate E.
  - apply Z.eqb_eq in E. subst y. reflexivity.
  - inversion E. apply Z.eqb_refl.
Qed.

Lemma desc_total (a b : option D) : Spark.desc a b = true \/ Spark.desc b a = true.
Proof.
  destruct a as [x|], b as [y|]; simpl; auto.
  destruct (dleb_total x y); auto.
Qed.

Lemma desc_trans (a b c : option D) :
  Spark.desc a b = true -> Spark.desc b c = true -> Spark.desc a c = true.
Proof.
  destruct a as [x|], b as [y|], c as [z|]; simpl; intros E1 E2;
    try reflexivity; try discriminate.
  eapply dleb_trans; eassumption.
Qed.

Lemma asc_total (a b : option Z) : Spark.asc a b = true \/ Spark.asc b a = true.
Proof.
  destruct a as [x|], b as [y|]; simpl; auto.
  destruct (Z.leb_spec x y); [left; reflexivity|right].
  apply Z.leb_le. lia.
Qed.

Lemma asc_trans (a b c : option Z) :
  Spark.asc a b = true -> Spark.asc b c = true -> Spark.asc a c = true.
Proof.
  destruct a as [x|], b as [y|], c as [z|]; simpl; intros E1 E2;
    try reflexivity; try discriminate.
  apply Z.leb_le. apply Z.leb_le in E1, E2. lia.
Qed.

Lemma asc_antisym (a b : option Z) :
  Spark.asc a b = true -> Spark.asc b a = true -> a = b.
Proof.
  destruct a as [x|], b as [y|]; simpl; intros E1 E2;
    try reflexivity; try discriminate.
  apply Z.leb_le in E1, E2. f_equal. lia.
Qed.

(** The filter condition of the script, on a row with its year column,
    is the window. *)
Lemma window_condition (r : SalesRow D) :
  Spark.holds
    (Spark.sql_and (Spark.sql_ge (year (withColumn_year r)) 2006)
                   (Spark.sql_le (year (withColumn_year r)) 2015)) = in_window r.
Proof.
  unfold in_window, withColumn_year. simpl.
  destruct (release_date r) as [d|]; simpl; [|reflexivity].
  destruct (2006 <=? Spark.date_year d)%Z, (Spark.date_year d <=? 2015)%Z; reflexivity.
Qed.

Lemma sales0615DF_window (table : list (SalesRow D)) :
  sales0615DF table = map withColumn_year (List.filter in_window table).
Proof.
  unfold sales0615DF, Spark.filter.
  rewrite SparkFacts.filter_map_comm. f_equal.
  apply filter_ext. intro r. apply window_condition.
Qed.

Lemma in_window_iff (r : SalesRow D) :
  in_window r = true <->
  exists d, release_date r = Some d /\ (2006 <= Spark.date_year d <= 2015)%Z.
Proof.
  unfold in_window. destruct (release_date r) as [d|]; split.
  - intro E. apply andb_true_iff in E. destruct E as [E1 E2].
    apply Z.leb_le in E1, E2. exists d. split; [reflexivity|lia].
  - intros [d' [E [H1 H2]]]. inversion E; subst d'.
    apply andb_true_iff. split; apply Z.leb_le; assumption.
  - intro E. discriminate E.
  - intros [d' [E _]]. discriminate E.
Qed.

Lemma outside_not_in_window (r : SalesRow D) :
  outside_window r -> in_window r = false.
Proof.
  intros [d [E Hy]]. unfold in_window. rewrite E.
  apply andb_false_iff. destruct Hy as [Hy|Hy]; [left|right]; apply Z.leb_gt; exact Hy.
Qed.

Lemma differ_outside_window (t1 t2 : list (SalesRow D)) :
  differ_outside t1 t2 -> List.filter in_window t1 = List.filter in_window t2.
Proof.
  induction 1 as [|r t1 t2 _ IH|r t1 t2 Ho _ IH|r t1 t2 Ho _ IH]; simpl.
  - reflexivity.
  - rewrite IH. reflexivity.
  - rewrite (outside_not_in_window Ho). exact IH.
  - rewrite (outside_not_in_window Ho). exact IH.
Qed.

(** A column of a group of rows with their year, read off the input rows. *)
Lemma group_column {V : Type} (column : SalesRow D -> V) (p : YearRow D -> bool)
    (rows : list (SalesRow D)) :
  map (fun r => column (sale r)) (List.filter p (map withColumn_year rows)) =
  map column (List.filter (fun r => p (withColumn_year r)) rows).
Proof.
  rewrite SparkFacts.filter_map_comm, map_map. reflexivity.
Qed.

Lemma publisherTotals_In (table : list (SalesRow D)) (pt : PublisherTotal D) :
  In pt (publisherTotals (sales0615DF table)) <->
  (exists r, In r table /\ in_window r = true /\ publisher r = pt_publisher pt) /\
  total_na_sales pt = group_total table (pt_publisher pt).
Proof.
  unfold publisherTotals. rewrite in_map_iff, sales0615DF_window.
  assert (Hcol : forall k,
    Spark.sum (map (fun r => na_sales (sale r))
      (List.filter (fun r => publisher_eqb k (publisher (sale r)))
         (map withColumn_year (List.filter in_window table)))) =
    group_total table k).
  { intro k. rewrite group_column. unfold group_total.
    rewrite SparkFacts.filter_twice. reflexivity. }
  assert (Hkey : forall k,
    In k (map (fun r => publisher (sale r))
            (map withColumn_year (List.filter in_window table))) <->
    exists r, In r table /\ in_window r = true /\ publisher r = k).
  { intro k. rewrite map_map. simpl. rewrite in_map_iff. split.
    - intros [r [E Hr]]. apply List.filter_In in Hr. exists r. tauto.
    - intros [r [Hr [Hw E]]]. exists r. split; [exact E|].
      apply List.filter_In. tauto. }
  split.
  - intros [[k rows] [E Hg]].
    apply (SparkFacts.groupBy_In _ publisher_eqb_eq) in Hg. destruct Hg as [Hk Hrows].
    subst pt rows. simpl. split; [apply Hkey; exact Hk|apply Hcol].
  - intros [Hk Ht].
    exists (pt_publisher pt,
            List.filter (fun r => publisher_eqb (pt_publisher pt) (publisher (sale r)))
              (map withColumn_year (List.filter in_window table))).
    split.
    + simpl. rewrite Hcol, <- Ht. destruct pt; reflexivity.
    + apply (SparkFacts.groupBy_In _ publisher_eqb_eq). split; [|reflexivity].
      apply Hkey. exact Hk.
Qed.

Lemma published_by_condition (bp : option string) (r : SalesRow D) :
  Spark.holds (Spark.sql_eq (publisher (sale (withColumn_year r))) bp) = published_by bp r.
Proof.
  unfold published_by. simpl.
  destruct (publisher r) as [a|], bp as [b|]; simpl; try reflexivity.
  destruct (String.eqb a b); reflexivity.
Qed.

(** [bestNADF] is the subset S of the input, each row with its year. *)
Lemma bestNADF_subset (table : list (SalesRow D)) (bp : option string) :
  bestNADF (sales0615DF table) bp = map withColumn_year (subset_S table bp).
Proof.
  unfold bestNADF, Spark.filter, subset_S.
  rewrite sales0615DF_window, SparkFacts.filter_map_comm, SparkFacts.filter_twice.
  f_equal. apply filter_ext. intro r. rewrite published_by_condition. reflexivity.
Qed.

Lemma bestNADF_null (sales0615 : list (YearRow D)) : bestNADF sales0615 None = [].
Proof.
  unfold bestNADF, Spark.filter.
  induction sales0615 as [|r l IH]; simpl; [reflexivity|].
  destruct (publisher (sale r)); simpl; exact IH.
Qed.

Lemma missing_count_subset (rows : list (SalesRow D)) :
  titlesWithMissingSalesData (map withColumn_year rows) = missing_in rows.
Proof.
  unfold titlesWithMissingSalesData, Spark.count, Spark.filter, missing_in.
  rewrite SparkFacts.filter_map_comm, length_map. f_equal.
  apply filter_ext. intro r. simpl. destruct (na_sales r); reflexivity.
Qed.

Lemma subset_S_In (table : list (SalesRow D)) (bp : option string) (r : SalesRow D) :
  In r (subset_S table bp) <->
  In r table /\ in_window r = true /\ published_by bp r = true.
Proof.
  unfold subset_S. rewrite List.filter_In, andb_true_iff. reflexivity.
Qed.

Lemma released_in_year (y : Z) (r : SalesRow D) :
  released_in y r = true <-> Spark.year (release_date r) = Some y.
Proof.
  unfold released_in, Spark.year. destruct (release_date r) as [d|]; simpl; split; intro E.
  - apply Z.eqb_eq in E. rewrite E. reflexivity.
  - inversion E. apply Z.eqb_refl.
  - discriminate E.
  - discriminate E.
Qed.

Lemma StronglySorted_map {A B : Type} (f : A -> B) (P : B -> B -> Prop) (l : list A) :
  StronglySorted (fun a b => P (f a) (f b)) l -> StronglySorted P (map f l).
Proof.
  induction 1 as [|a l _ IH Hall]; simpl; constructor.
  - exact IH.
  - apply Forall_forall. intros b Hb. apply in_map_iff in Hb.
    destruct Hb as [x [E Hx]]. subst b.
    rewrite Forall_forall in Hall. apply Hall. exact Hx.
Qed.

Lemma sorted_years_strict (years : list Z) :
  StronglySorted (fun a b => Spark.asc (Some a) (Some b) = true) years ->
  NoDup years -> StronglySorted Z.lt years.
Proof.
  induction 1 as [|a l _ IH Hall]; intro Hnd; constructor.
  - apply IH. inversion Hnd; assumption.
  - apply Forall_forall. intros b Hb.
    rewrite Forall_forall in Hall. specialize (Hall b Hb). simpl in Hall.
    apply Z.leb_le in Hall.
    assert (a <> b) by (intro E; subst b; inversion Hnd; contradiction).
    lia.
Qed.

(** The yearly table of rows that all have a date: one row per year
    that occurs, as step 7 computes it, years strictly increasing. *)
Lemma yearly_shape (rows : list (SalesRow D)) :
  (forall r, In r rows -> in_window r = true) ->
  exists years,
    StronglySorted Z.lt years /\
    (forall y, In y years <-> exists r, In r rows /\ released_in y r = true) /\
    bestNAPublisherSales (map withColumn_year rows) = map (yearly_row rows) years.
Proof.
  intro Hwin.
  set (bestNA := map withColumn_year rows).
  set (keys := Spark.distinct year_eqb (map year bestNA)).
  set (row_of := fun k : option Z =>
    {| ya_year := k;
       na_total := Spark.round (Spark.sum (map (fun r => na_sales (sale r))
                     (List.filter (fun r => year_eqb k (year r)) bestNA))) 2;
       global_total := Spark.round (Spark.sum (map (fun r => total_sales (sale r))
                     (List.filter (fun r => year_eqb k (year r)) bestNA))) 2 |}).
  assert (Htotals : yearlyTotals bestNA = map row_of keys).
  { unfold yearlyTotals, Spark.groupBy. rewrite map_map. reflexivity. }
  assert (Hkeys : forall k, In k keys <->
            exists r, In r rows /\ Spark.year (release_date r) = k).
  { intro k. unfold keys. rewrite (SparkFacts.distinct_In _ year_eqb_eq).
    unfold bestNA. rewrite map_map. simpl. rewrite in_map_iff.
    split; intros [r [A B]]; exists r; tauto. }
  assert (Hsome : forall k, In k keys -> exists y, k = Some y).
  { intros k Hk. apply Hkeys in Hk. destruct Hk as [r [Hr E]].
    apply Hwin, in_window_iff in Hr. destruct Hr as [d [Ed _]].
    rewrite Ed in E. simpl in E. eexists. symmetry. exact E. }
  assert (Hrow : forall y, row_of (Some y) = yearly_row rows y).
  { intro y. unfold row_of, yearly_row, year_rows, bestNA.
    rewrite !group_column.
    assert (Hf : List.filter (fun r => year_eqb (Some y) (year (withColumn_year r))) rows
                 = List.filter (released_in y) rows).
    { apply filter_ext. intro r. unfold released_in. simpl.
      destruct (release_date r) as [d|]; simpl; [apply Z.eqb_sym|reflexivity]. }
    rewrite Hf. reflexivity. }
  set (sorted := bestNAPublisherSales bestNA).
  destruct (SparkFacts.orderBy_ordered_by Spark.asc (@ya_year D) asc_total asc_trans
              (yearlyTotals bestNA)) as [Hperm Hsorted].
  fold (bestNAPublisherSales bestNA) in Hperm, Hsorted. fold sorted in Hperm, Hsorted.
  rewrite Htotals in Hperm.
  assert (Hkperm : Permutation keys (map (@ya_year D) sorted)).
  { apply (Permutation_map (@ya_year D)) in Hperm.
    rewrite map_map in Hperm. simpl in Hperm. rewrite map_id in Hperm. exact Hperm. }
  assert (Hself : sorted = map row_of (map (@ya_year D) sorted)).
  { rewrite map_map. rewrite <- (map_id sorted) at 1.
    apply map_ext_in. intros a Ha.
    apply (Permutation_in a (Permutation_sym Hperm)) in Ha.
    apply in_map_iff in Ha. destruct Ha as [k [E _]]. subst a. reflexivity. }
  set (years := map (fun k : option Z => match k with Some y => y | None => 0%Z end)
                    (map (@ya_year D) sorted)).
  assert (Hyears : map (@ya_year D) sorted = map Some years).
  { unfold years. rewrite map_map. rewrite <- (map_id (map (@ya_year D) sorted)) at 1.
    apply map_ext_in. intros k Hk.
    apply (Permutation_in k (Permutation_sym Hkperm)) in Hk.
    destruct (Hsome k Hk) as [y E]. subst k. reflexivity. }
  exists years. split; [|split].
  - apply sorted_years_strict.
    + apply StronglySorted_map with (f := @ya_year D) (P := fun a b => Spark.asc a b = true)
        in Hsorted.
      rewrite Hyears in Hsorted. clear - Hsorted.
      induction years as [|a l IH]; [constructor|].
      simpl in Hsorted. inversion Hsorted as [|? ? Hs Hall]; subst.
      constructor; [apply IH; exact Hs|].
      apply Forall_forall. intros b Hb. rewrite Forall_forall in Hall.
      apply Hall. apply in_map. exact Hb.
    + apply NoDup_map_inv with (f := @Some Z). rewrite <- Hyears.
      apply (Permutation_NoDup Hkperm).
      apply (SparkFacts.distinct_NoDup _ year_eqb_eq).
  - intro y. split.
    + intro Hy. apply (in_map Some) in Hy. rewrite <- Hyears in Hy.
      apply (Permutation_in _ (Permutation_sym Hkperm)), Hkeys in Hy.
      destruct Hy as [r [Hr E]]. exists r. split; [exact Hr|].
      apply released_in_year. exact E.
    + intros [r [Hr E]]. apply released_in_year in E.
      assert (Hk : In (Some y) keys) by (apply Hkeys; exists r; tauto).
      apply (Permutation_in _ Hkperm) in Hk. rewrite Hyears in Hk.
      apply in_map_iff in Hk. destruct Hk as [y' [Ey Hy']].
      inversion Ey; subst y'. exact Hy'.
  - fold sorted. rewrite Hself, Hyears, map_map.
    apply map_ext. exact Hrow.
Qed.

(** No two rows of the yearly table have the same year. *)
Lemma yearlyTotals_key (bestNA : list (YearRow D)) (a b : YearlyAggregate D) :
  In a (yearlyTotals bestNA) -> In b (yearlyTotals bestNA) ->
  ya_year a = ya_year b -> a = b.
Proof.
  unfold yearlyTotals. intros Ha Hb E.
  apply in_map_iff in Ha. destruct Ha as [[ka ga] [Ea Ha]].
  apply in_map_iff in Hb. destruct Hb as [[kb gb] [Eb Hb]].
  apply (SparkFacts.groupBy_In _ year_eqb_eq) in Ha, Hb.
  destruct Ha as [_ Hga]. destruct Hb as [_ Hgb].
  subst a b. simpl in E. subst kb ga gb. reflexivity.
Qed.

(** So [orderBy("year")] can give one table only, the computed one. *)
Lemma ordered_by_unique (bestNA : list (YearRow D)) (sorted : list (YearlyAggregate D)) :
  Spark.ordered_by Spark.asc (@ya_year D) (yearlyTotals bestNA) sorted ->
  sorted = bestNAPublisherSales bestNA.
Proof.
  intros [Hperm Hsorted].
  destruct (SparkFacts.orderBy_ordered_by Spark.asc (@ya_year D) asc_total asc_trans
              (yearlyTotals bestNA)) as [Hperm' Hsorted'].
  apply (SparkFacts.sorted_perm_unique Spark.asc (@ya_year D)).
  - intros a b Ha Hb E1 E2.
    apply (Permutation_in a (Permutation_sym Hperm)) in Ha.
    apply (Permutation_in b (Permutation_sym Hperm)) in Hb.
    eapply yearlyTotals_key; [exact Ha|exact Hb|].
    apply asc_antisym; assumption.
  - exact Hsorted.
  - exact Hsorted'.
  - apply perm_trans with (yearlyTotals bestNA).
    + apply Permutation_sym. exact Hperm.
    + exact Hperm'.
Qed.

(** The stable run is one of the runs of the engine. *)
Lemma analyze_publisher_sales_run (spark : SparkSession D) (file_path : string) :
  spark_run spark file_path (analyze_publisher_sales spark file_path).
Proof.
  unfold spark_run, analyze_publisher_sales.
  eexists. split; [|reflexivity].
  apply SparkFacts.orderBy_ordered_by; [apply desc_total|apply desc_trans].
Qed.

(** The script after [first()] looks at the publisher of the first
    row only. *)
Lemma analyze_ordered_first (sales0615 : list (YearRow D))
    (top1 top2 : PublisherTotal D) (rest1 rest2 : list (PublisherTotal D)) :
  pt_publisher top1 = pt_publisher top2 ->
  analyze_ordered sales0615 (top1 :: rest1) = analyze_ordered sales0615 (top2 :: rest2).
Proof.
  intro E. unfold analyze_ordered. simpl. rewrite E. reflexivity.
Qed.

Lemma top_publisher_row (table : list (SalesRow D)) (k : option string) :
  top_publisher table k -> List.filter in_window table = [] -> False.
Proof.
  intros [[r [Hr [Hw _]]] _] Hempty.
  assert (Hin : In r (List.filter in_window table)) by (apply List.filter_In; tauto).
  rewrite Hempty in Hin. exact Hin.
Qed.

(** Every run is one of two: no row in the window and the crash on
    the missing row, or the rest of the script run on a first row
    whose publisher is a top publisher. *)
Lemma run_first (spark : SparkSession D) (file_path : string) (e : Execution D) :
  spark_run spark file_path e ->
  let table := load_sales_data spark file_path in
  (List.filter in_window table = [] /\ e = crashed_on_missing_row) \/
  (exists top rest,
      top_publisher table (pt_publisher top) /\
      e = analyze_ordered (sales0615DF table) (top :: rest)).
Proof.
  intros [ordered [Hord He]] table. fold table in Hord, He.
  destruct ordered as [|top rest].
  - left. split; [|exact He].
    destruct (List.filter in_window table) as [|r l] eqn:Ef; [reflexivity|exfalso].
    assert (Hr : In r table /\ in_window r = true)
      by (apply List.filter_In; rewrite Ef; left; reflexivity).
    apply SparkFacts.ordered_by_nil in Hord.
    assert (Hin : In {| pt_publisher := publisher r;
                        total_na_sales := group_total table (publisher r) |}
                     (publisherTotals (sales0615DF table))).
    { apply publisherTotals_In. simpl. split; [|reflexivity].
      exists r. tauto. }
    rewrite Hord in Hin. exact Hin.
  - right. exists top, rest. split; [|exact He].
    apply (SparkFacts.ordered_by_head desc_total) in Hord.
    destruct Hord as [Htop Hmax].
    apply publisherTotals_In in Htop. destruct Htop as [Hrow Htotal].
    split; [exact Hrow|]. intros r Hr Hw.
    rewrite <- Htotal.
    apply (Hmax {| pt_publisher := publisher r;
                   total_na_sales := group_total table (publisher r) |}).
    apply publisherTotals_In. simpl. split; [|reflexivity].
    exists r. tauto.
Qed.

(** What the rest of the script reports for the publisher of the
    first row. *)
Lemma analyze_ordered_reports (table : list (SalesRow D))
    (top : PublisherTotal D) (rest : list (PublisherTotal D)) :
  exists years,
    StronglySorted Z.lt years /\
    (forall y, In y years <->
       exists r, In r (subset_S table (pt_publisher top)) /\ released_in y r = true) /\
    analyze_ordered (sales0615DF table) (top :: rest) =
    reported (pt_publisher top) (missing_in (subset_S table (pt_publisher top)))
             (map (yearly_row (subset_S table (pt_publisher top))) years).
Proof.
  destruct (@yearly_shape (subset_S table (pt_publisher top))) as [years [Hs [Hy Hsales]]].
  { intros r Hr. apply subset_S_In in Hr. tauto. }
  exists years. split; [exact Hs|]. split; [exact Hy|].
  unfold analyze_ordered, reported. simpl.
  rewrite bestNADF_subset, missing_count_subset, Hsales. reflexivity.
Qed.

Lemma run_shape (spark : SparkSession D) (file_path : string) (e : Execution D) :
  spark_run spark file_path e ->
  let table := load_sales_data spark file_path in
  (List.filter in_window table = [] /\ e = crashed_on_missing_row) \/
  (exists bp years,
      top_publisher table bp /\
      StronglySorted Z.lt years /\
      (forall y, In y years <->
                 exists r, In r (subset_S table bp) /\ released_in y r = true) /\
      e = reported bp (missing_in (subset_S table bp))
                   (map (yearly_row (subset_S table bp)) years)).
Proof.
  intros Hrun table. destruct (run_first Hrun) as [Hempty|[top [rest [Hbest He]]]].
  - left. exact Hempty.
  - right. fold table in Hbest, He.
    destruct (analyze_ordered_reports table top rest) as [years [Hs [Hy Hrep]]].
    exists (pt_publisher top), years.
    split; [exact Hbest|]. split; [exact Hs|]. split; [exact Hy|].
    rewrite He. exact Hrep.
Qed.

End AnalysisFacts.

(** ** The analyzer's properties *)

Unset Implicit Arguments.

Section Analyzer.

Context {D : Type} `{DoubleOps D}.

Variable spark : SparkSession D.
Variable file_path : string.

(** C1, as amended.  When no row of the input is in the window 2006
    to 2015 (so also for an empty file), the ranking has no first
    row, [first()] gives None and subscripting it ends every run in
    Python's TypeError, before anything is printed; the script has no
    exception of its own for "nothing found". *)
Theorem empty_window_raises_TypeError :
  List.filter in_window (load_sales_data spark file_path) = [] ->
  analyze_publisher_sales spark file_path = crashed_on_missing_row /\
  (forall e, spark_run spark file_path e -> e = crashed_on_missing_row) /\
  ~ signals_not_found (analyze_publisher_sales spark file_path).
Proof.
  intro Hempty.
  assert (Hall : forall e, spark_run spark file_path e -> e = crashed_on_missing_row).
  { intros e Hrun. destruct (run_shape Hrun) as [[_ He]|[bp [years [Hbest _]]]].
    - exact He.
    - exfalso. exact (top_publisher_row Hbest Hempty). }
  assert (Hstable := Hall _ (analyze_publisher_sales_run spark file_path)).
  split; [exact Hstable|]. split; [exact Hall|].
  rewrite Hstable. intros [ex [Eraised Hclass]].
  simpl in Eraised. inversion Eraised; subst ex.
  simpl in Hclass. destruct Hclass as [E|E]; discriminate E.
Qed.

(** C2, as amended.  For every input table with a row in the window
    the analyzer runs to its end: it returns the pair (best_publisher,
    yearly_sales) to the caller, and writes best_publisher,
    missing_count and the yearly table to standard output, the count
    being printed only and not part of the returned value. *)
Theorem nonempty_window_reports :
  (exists r, In r (load_sales_data spark file_path) /\ in_window r = true) ->
  spark_run spark file_path (analyze_publisher_sales spark file_path) /\
  forall e, spark_run spark file_path e ->
    exists bp missing yearly,
      stdout e = [Print (publisher_line bp); Print (missing_line missing);
                  Print sales_line; show yearly] /\
      result e = Py.Returned (bp, yearly).
Proof.
  intros [r [Hr Hw]]. split; [apply analyze_publisher_sales_run|].
  intros e Hrun. destruct (run_shape Hrun) as [[Hempty _]|[bp [years [_ [_ [_ He]]]]]].
  - exfalso.
    assert (Hin : In r (List.filter in_window (load_sales_data spark file_path)))
      by (apply List.filter_In; tauto).
    rewrite Hempty in Hin. exact Hin.
  - subst e. do 3 eexists. split; reflexivity.
Qed.

(** C3.  For every input with a row in the window, every run returns
    as best_publisher a publisher of the window whose total of
    na_sales over the rows of the window (NULLs skipped by [sum]) no
    other publisher's total exceeds: it is the first group of the
    per-publisher totals in descending order.  A publisher all of
    whose na_sales are NULL has a NULL total, which the descending
    order puts last. *)
Theorem best_publisher_has_maximal_total (e : Execution D) :
  (exists r, In r (load_sales_data spark file_path) /\ in_window r = true) ->
  spark_run spark file_path e ->
  exists bp yearly,
    result e = Py.Returned (bp, yearly) /\
    (exists r, In r (load_sales_data spark file_path) /\
               in_window r = true /\ publisher r = bp) /\
    forall r, In r (load_sales_data spark file_path) -> in_window r = true ->
      Spark.desc (group_total (load_sales_data spark file_path) bp)
                 (group_total (load_sales_data spark file_path) (publisher r)) = true.
Proof.
  intros [r [Hr Hw]] Hrun.
  destruct (run_shape Hrun) as [[Hempty _]|[bp [years [Hbest [_ [_ He]]]]]].
  - exfalso.
    assert (Hin : In r (List.filter in_window (load_sales_data spark file_path)))
      by (apply List.filter_In; tauto).
    rewrite Hempty in Hin. exact Hin.
  - subst e. eexists bp, _. split; [reflexivity|]. exact Hbest.
Qed.

(** C5.  The returned yearly_sales has its years strictly increasing;
    each of its rows is the row of a year in which the best publisher
    has rows in the window, with na_total and global_total the sums
    of na_sales and of total_sales over these rows, rounded to 2
    places; and every such year has its row. *)
Theorem yearly_sales_by_year (e : Execution D) (bp : option string)
    (yearly : list (YearlyAggregate D)) :
  spark_run spark file_path e ->
  result e = Py.Returned (bp, yearly) ->
  StronglySorted
    (fun a b => exists x y, ya_year a = Some x /\ ya_year b = Some y /\ (x < y)%Z)
    yearly /\
  (forall a, In a yearly ->
     exists y,
       (exists r, In r (subset_S (load_sales_data spark file_path) bp) /\
                  released_in y r = true) /\
       ya_year a = Some y /\
       na_total a =
         Spark.round (Spark.sum (map na_sales
           (year_rows y (subset_S (load_sales_data spark file_path) bp)))) 2 /\
       global_total a =
         Spark.round (Spark.sum (map total_sales
           (year_rows y (subset_S (load_sales_data spark file_path) bp)))) 2) /\
  (forall r, In r (subset_S (load_sales_data spark file_path) bp) ->
     exists a, In a yearly /\ ya_year a = Spark.year (release_date r)).
Proof.
  intros Hrun Hres.
  destruct (run_shape Hrun) as [[_ He]|[bp' [years [_ [Hsorted [Hyears He]]]]]];
    subst e; simpl in Hres; [discriminate Hres|].
  inversion Hres; subst bp' yearly. clear Hres.
  split; [|split].
  - apply StronglySorted_map.
    clear Hyears Hrun. induction Hsorted as [|x l _ IH Hall]; constructor.
    + exact IH.
    + apply Forall_impl with (P := Z.lt x); [|exact Hall].
      intros y Hxy. exists x, y. simpl. tauto.
  - intros a Ha. apply in_map_iff in Ha. destruct Ha as [y [Ea Hy]].
    exists y. subst a. simpl. split; [apply Hyears; exact Hy|]. tauto.
  - intros r Hr.
    assert (Hw : in_window r = true) by (apply subset_S_In in Hr; tauto).
    apply in_window_iff in Hw. destruct Hw as [d [Ed _]].
    exists (yearly_row (subset_S (load_sales_data spark file_path) bp) (Spark.date_year d)).
    split.
    + apply in_map. apply Hyears. exists r. split; [exact Hr|].
      apply released_in_year. rewrite Ed. reflexivity.
    + rewrite Ed. reflexivity.
Qed.

(** C4.  The rows kept by the filter are exactly the input rows that
    have a release date whose year is 2006 to 2015, both ends
    included, so a row with a NULL release date is dropped; and two
    inputs that differ only in rows whose year is outside 2006 to
    2015 give the same filtered table, the same stable run and the
    same possible runs, hence the same best_publisher and yearly
    rows. *)
Theorem window_filter_exact (spark' : SparkSession D) (file_path' : string) :
  differ_outside (load_sales_data spark file_path)
                 (load_sales_data spark' file_path') ->
  (forall r : YearRow D,
     In r (sales0615DF (load_sales_data spark file_path)) <->
     exists r0 d,
       In r0 (load_sales_data spark file_path) /\ r = withColumn_year r0 /\
       release_date r0 = Some d /\ (2006 <= Spark.date_year d <= 2015)%Z) /\
  sales0615DF (load_sales_data spark file_path) =
    sales0615DF (load_sales_data spark' file_path') /\
  analyze_publisher_sales spark file_path =
    analyze_publisher_sales spark' file_path' /\
  (forall e, spark_run spark file_path e <-> spark_run spark' file_path' e).
Proof.
  intro Hdiff.
  assert (Hsame : sales0615DF (load_sales_data spark file_path) =
                  sales0615DF (load_sales_data spark' file_path')).
  { rewrite !sales0615DF_window. f_equal. apply differ_outside_window. exact Hdiff. }
  split; [|split; [exact Hsame|split]].
  - intro r. rewrite sales0615DF_window, in_map_iff. split.
    + intros [r0 [E Hr0]]. apply List.filter_In in Hr0. destruct Hr0 as [Hr0 Hw].
      apply in_window_iff in Hw. destruct Hw as [d [Ed Hy]].
      exists r0, d. split; [exact Hr0|]. split; [symmetry; exact E|]. tauto.
    + intros [r0 [d [Hr0 [E [Ed Hy]]]]]. exists r0. split; [symmetry; exact E|].
      apply List.filter_In. split; [exact Hr0|].
      apply in_window_iff. exists d. tauto.
  - unfold analyze_publisher_sales. rewrite Hsame. reflexivity.
  - intro e. unfold spark_run. rewrite Hsame. reflexivity.
Qed.

(** C6.  The count that the script prints as missing is the number of
    rows of the window published by best_publisher whose na_sales is
    NULL; and a NULL adds nothing to a sum: the sum of a column is the
    sum of its values that are not NULL, and is unchanged when a NULL
    is taken out of the column. *)
Theorem missing_count_counts_null_na_sales (e : Execution D) (bp : option string)
    (yearly : list (YearlyAggregate D)) :
  spark_run spark file_path e ->
  result e = Py.Returned (bp, yearly) ->
  nth_error (stdout e) 1 =
    Some (Print (missing_line
      (List.length
         (List.filter (fun r => negb (Spark.is_value (na_sales r)))
            (subset_S (load_sales_data spark file_path) bp))))) /\
  (forall column : list (option D),
     Spark.sum column = Spark.sum (List.filter Spark.is_value column)) /\
  (forall before after : list (option D),
     Spark.sum (before ++ None :: after) = Spark.sum (before ++ after)).
Proof.
  intros Hrun Hres. split; [|split].
  - destruct (run_shape Hrun) as [[_ He]|[bp' [years [_ [_ [_ He]]]]]];
      subst e; simpl in Hres; [discriminate Hres|].
    inversion Hres; subst bp'. reflexivity.
  - intro column. apply SparkFacts.sum_fold_skips_null.
  - apply SparkFacts.sum_app_null.
Qed.

(** C7, as amended.  When at most one publisher of the window has a
    total that no other total exceeds, all runs on the same input are
    the same run: same output, same best_publisher, same yearly_sales.
    When two publishers tie for the highest total the script gives no
    tie-break and the run depends on the order [orderBy] leaves them
    in. *)
Theorem unique_top_deterministic (e1 e2 : Execution D) :
  unique_top (load_sales_data spark file_path) ->
  spark_run spark file_path e1 ->
  spark_run spark file_path e2 ->
  e1 = e2.
Proof.
  intros Huniq Hrun1 Hrun2.
  destruct (run_first Hrun1) as [[Hempty1 He1]|[top1 [rest1 [Hbest1 He1]]]];
    destruct (run_first Hrun2) as [[Hempty2 He2]|[top2 [rest2 [Hbest2 He2]]]].
  - rewrite He1, He2. reflexivity.
  - exfalso. exact (top_publisher_row Hbest2 Hempty1).
  - exfalso. exact (top_publisher_row Hbest1 Hempty2).
  - rewrite He1, He2. apply analyze_ordered_first.
    apply Huniq; assumption.
Qed.

(** C8, as amended.  The sum of na_total over the rows of
    yearly_sales is the sum, over the years in which best_publisher
    has rows in the window, of that year's sum of na_sales rounded to
    2 places: the rounding is done per year, before the yearly values
    are added. *)
Theorem na_totals_sum_yearly_roundings (e : Execution D) (bp : option string)
    (yearly : list (YearlyAggregate D)) :
  spark_run spark file_path e ->
  result e = Py.Returned (bp, yearly) ->
  exists years,
    StronglySorted Z.lt years /\
    (forall y, In y years <->
       exists r, In r (subset_S (load_sales_data spark file_path) bp) /\
                 released_in y r = true) /\
    Spark.sum (map (@na_total D) yearly) =
    Spark.sum (map (fun y =>
                 Spark.round (Spark.sum (map na_sales
                   (year_rows y (subset_S (load_sales_data spark file_path) bp)))) 2)
               years).
Proof.
  intros Hrun Hres.
  destruct (run_shape Hrun) as [[_ He]|[bp' [years [_ [Hsorted [Hyears He]]]]]];
    subst e; simpl in Hres; [discriminate Hres|].
  inversion Hres; subst bp' yearly.
  exists years. split; [exact Hsorted|]. split; [exact Hyears|].
  rewrite map_map. reflexivity.
Qed.

(** C9.  When best_publisher comes out as None, the comparison
    [publisher == None] is NULL for every row, rows without a
    publisher included, so the subset is empty: the run reports a
    missing count of 0 and returns an empty yearly table. *)
Theorem null_best_publisher_matches_no_row (e : Execution D)
    (yearly : list (YearlyAggregate D)) :
  spark_run spark file_path e ->
  result e = Py.Returned (None, yearly) ->
  bestNADF (sales0615DF (load_sales_data spark file_path)) None = [] /\
  yearly = [] /\
  e = reported None 0 [].
Proof.
  intros Hrun Hres. split; [apply bestNADF_null|].
  destruct (run_first Hrun) as [[_ He]|[top [rest [_ He]]]];
    subst e; [discriminate Hres|].
  unfold analyze_ordered in *. simpl in *.
  inversion Hres as [[Etop Eyearly]]. rewrite Etop in *.
  rewrite bestNADF_null in *. split; reflexivity.
Qed.

(** C10.  A year in which best_publisher has rows in the window has
    its row in yearly_sales; when na_sales is NULL in all rows of
    that year the row's na_total is NULL, not zero, and when
    total_sales is NULL in all of them its global_total is NULL. *)
Theorem all_null_year_has_null_total (e : Execution D) (bp : option string)
    (yearly : list (YearlyAggregate D)) (y : Z) :
  spark_run spark file_path e ->
  result e = Py.Returned (bp, yearly) ->
  (exists r, In r (subset_S (load_sales_data spark file_path) bp) /\
             released_in y r = true) ->
  exists a,
    In a yearly /\ ya_year a = Some y /\
    ((forall r, In r (subset_S (load_sales_data spark file_path) bp) ->
                released_in y r = true -> na_sales r = None) ->
     na_total a = None) /\
    ((forall r, In r (subset_S (load_sales_data spark file_path) bp) ->
                released_in y r = true -> total_sales r = None) ->
     global_total a = None).
Proof.
  intros Hrun Hres Hyear.
  destruct (run_shape Hrun) as [[_ He]|[bp' [years [_ [_ [Hyears He]]]]]];
    subst e; simpl in Hres; [discriminate Hres|].
  inversion Hres; subst bp' yearly.
  exists (yearly_row (subset_S (load_sales_data spark file_path) bp) y).
  split; [apply in_map; apply Hyears; exact Hyear|].
  split; [reflexivity|].
  assert (Hnull : forall column : SalesRow D -> option D,
    (forall r, In r (subset_S (load_sales_data spark file_path) bp) ->
               released_in y r = true -> column r = None) ->
    Spark.round (Spark.sum (map column
      (year_rows y (subset_S (load_sales_data spark file_path) bp)))) 2 = None).
  { intros column Hall. rewrite SparkFacts.sum_all_null; [reflexivity|].
    intros x Hx. apply in_map_iff in Hx. destruct Hx as [r [E Hr]].
    apply List.filter_In in Hr. rewrite <- E. apply Hall; tauto. }
  split; intro Hall; simpl; apply Hnull; exact Hall.
Qed.

End Analyzer.

(** ** Further properties of the script *)

Section SumFacts.

Context {D : Type} `{DoubleOps D}.

(** A sum that ends NULL began NULL and met no value. *)
Lemma sum_fold_null (column : list (option D)) :
  forall buf,
    fold_left Spark.sum_step column buf = None ->
    buf = None /\ forall x, In x column -> x = None.
Proof.
  induction column as [|x l IH]; intros buf E.
  - split; [exact E|]. intros y [].
  - change (fold_left Spark.sum_step l (Spark.sum_step buf x) = None) in E.
    destruct (IH _ E) as [Estep Hall].
    destruct x as [v|]; [discriminate Estep|].
    split; [exact Estep|].
    intros y [Ey|Hy]; [symmetry; exact Ey|apply Hall; exact Hy].
Qed.

(** A sum is NULL exactly when every value of the column is NULL. *)
Lemma sum_null_iff (column : list (option D)) :
  Spark.sum column = None <-> forall x, In x column -> x = None.
Proof.
  split; [|apply SparkFacts.sum_all_null].
  intro E. apply (sum_fold_null column None). exact E.
Qed.

Lemma round_null_iff (x : option D) (scale : Z) : Spark.round x scale = None <-> x = None.
Proof.
  destruct x; simpl; split; intro E; try reflexivity; discriminate E.
Qed.

End SumFacts.

(** Strictly increasing integers between two bounds are no more than
    the bounds leave room for. *)
Lemma strictly_sorted_length (hi : Z) (l : list Z) :
  forall lo,
    StronglySorted Z.lt l -> (forall y, In y l -> (lo <= y <= hi)%Z) ->
    (Z.of_nat (List.length l) <= Z.max 0 (hi - lo + 1))%Z.
Proof.
  induction l as [|a l IH]; intros lo Hs Hr.
  - simpl. lia.
  - inversion Hs as [|? ? Hs' Hall]; subst. rewrite Forall_forall in Hall.
    assert (Ha := Hr a (or_introl eq_refl)).
    assert (Hl : (Z.of_nat (List.length l) <= Z.max 0 (hi - (a + 1) + 1))%Z).
    { apply IH; [exact Hs'|]. intros y Hy.
      assert (Hy1 := Hall y Hy). assert (Hy2 := Hr y (or_intror Hy)). lia. }
    change (List.length (a :: l)) with (S (List.length l)).
    rewrite Nat2Z.inj_succ. lia.
Qed.

Section Further.

Context {D : Type} `{DoubleOps D}.

Variable spark : SparkSession D.
Variable file_path : string.

(** X1.  The analysis reads the four required columns only: two files
    whose lines agree, one by one, on publisher, release_date, na_sales
    and total_sales give the same runs, whatever their other eight
    columns hold. *)
Theorem unused_columns_do_not_matter (spark' : SparkSession D) (file_path' : string) :
  Forall2 same_required (read_csv spark file_path) (read_csv spark' file_path') ->
  load_sales_data spark file_path = load_sales_data spark' file_path' /\
  analyze_publisher_sales spark file_path =
    analyze_publisher_sales spark' file_path' /\
  (forall e, spark_run spark file_path e <-> spark_run spark' file_path' e).
Proof.
  intro Hsame.
  assert (Hload : load_sales_data spark file_path = load_sales_data spark' file_path').
  { unfold load_sales_data.
    induction Hsame as [|a b la lb Hab _ IH]; simpl; [reflexivity|].
    rewrite IH. f_equal. unfold required_columns.
    destruct Hab as [Ep [Ed [En Et]]]. rewrite Ep, Ed, En, Et. reflexivity. }
  split; [exact Hload|]. split.
  - unfold analyze_publisher_sales. rewrite Hload. reflexivity.
  - intro e. unfold spark_run. rewrite Hload. reflexivity.
Qed.

(** X2.  A row without a release date has a NULL year and never passes
    the filter: taking such a row out of the table, wherever it stands,
    leaves every run as it was. *)
Theorem undated_row_does_not_matter (spark' : SparkSession D) (file_path' : string)
    (before after : list (SalesRow D)) (r : SalesRow D) :
  release_date r = None ->
  load_sales_data spark file_path = before ++ r :: after ->
  load_sales_data spark' file_path' = before ++ after ->
  analyze_publisher_sales spark file_path =
    analyze_publisher_sales spark' file_path' /\
  (forall e, spark_run spark file_path e <-> spark_run spark' file_path' e).
Proof.
  intros Hdate Hwith Hwithout.
  assert (Hsame : sales0615DF (load_sales_data spark file_path) =
                  sales0615DF (load_sales_data spark' file_path')).
  { rewrite !sales0615DF_window, Hwith, Hwithout, !filter_app. simpl.
    unfold in_window at 2. rewrite Hdate. reflexivity. }
  split.
  - unfold analyze_publisher_sales. rewrite Hsame. reflexivity.
  - intro e. unfold spark_run. rewrite Hsame. reflexivity.
Qed.

(** X3.  Every year of the returned yearly_sales is between 2006 and
    2015, so the table has at most ten rows, and [show()], which
    renders 20 rows, writes the whole table. *)
Theorem yearly_sales_within_window (e : Execution D) (bp : option string)
    (yearly : list (YearlyAggregate D)) :
  spark_run spark file_path e ->
  result e = Py.Returned (bp, yearly) ->
  (forall a, In a yearly -> exists y, ya_year a = Some y /\ (2006 <= y <= 2015)%Z) /\
  (List.length yearly <= 10)%nat /\
  nth_error (stdout e) 3 = Some (Table yearly).
Proof.
  intros Hrun Hres.
  destruct (run_shape Hrun) as [[_ He]|[bp' [years [_ [Hsorted [Hyears He]]]]]];
    subst e; simpl in Hres; [discriminate Hres|].
  inversion Hres; subst bp' yearly. clear Hres.
  assert (Hrange : forall y, In y years -> (2006 <= y <= 2015)%Z).
  { intros y Hy. apply Hyears in Hy. destruct Hy as [r [Hr Hrel]].
    apply subset_S_In in Hr. destruct Hr as [_ [Hw _]].
    apply in_window_iff in Hw. destruct Hw as [d [Ed Hd]].
    apply released_in_year in Hrel. rewrite Ed in Hrel. simpl in Hrel.
    inversion Hrel. subst y. exact Hd. }
  assert (Hlen : (List.length (map (yearly_row
             (subset_S (load_sales_data spark file_path) bp)) years) <= 10)%nat).
  { rewrite length_map.
    assert (Hz := strictly_sorted_length 2015 years 2006 Hsorted Hrange). lia. }
  split; [|split].
  - intros a Ha. apply in_map_iff in Ha. destruct Ha as [y [Ea Hy]].
    exists y. subst a. split; [reflexivity|apply Hrange; exact Hy].
  - exact Hlen.
  - simpl. unfold show, Spark.limit. rewrite firstn_all2; [reflexivity|lia].
Qed.

(** X4.  The returned yearly_sales is empty exactly when the returned
    best_publisher is None: a publisher with a name always has a row in
    the window, hence a year. *)
Theorem yearly_sales_empty_iff_no_publisher (e : Execution D) (bp : option string)
    (yearly : list (YearlyAggregate D)) :
  spark_run spark file_path e ->
  result e = Py.Returned (bp, yearly) ->
  (yearly = [] <-> bp = None).
Proof.
  intros Hrun Hres.
  destruct (run_shape Hrun) as [[_ He]|[bp' [years [Hbest [_ [Hyears He]]]]]];
    subst e; simpl in Hres; [discriminate Hres|].
  inversion Hres; subst bp' yearly. clear Hres.
  split.
  - intro Hempty. destruct bp as [p|]; [exfalso|reflexivity].
    destruct Hbest as [[r [Hr [Hw Ep]]] _].
    apply in_window_iff in Hw. destruct Hw as [d [Ed Hd]].
    assert (Hy : In (Spark.date_year d) years).
    { apply Hyears. exists r. split.
      - apply subset_S_In. split; [exact Hr|]. split.
        + apply in_window_iff. exists d. tauto.
        + unfold published_by. rewrite Ep. apply String.eqb_refl.
      - apply released_in_year. rewrite Ed. reflexivity. }
    destruct years as [|y l]; [exact Hy|discriminate Hempty].
  - intro Enone. subst bp.
    destruct years as [|y l]; [reflexivity|exfalso].
    destruct (proj1 (Hyears y) (or_introl eq_refl)) as [r [Hr _]].
    apply subset_S_In in Hr. destruct Hr as [_ [_ Hp]].
    unfold published_by in Hp. destruct (publisher r); discriminate Hp.
Qed.

(** X5.  In the returned yearly_sales a na_total is NULL exactly when
    na_sales is NULL in every row of the best publisher in that year,
    and a global_total is NULL exactly when total_sales is: one figure
    in the year is enough for a total. *)
Theorem yearly_total_null_iff (e : Execution D) (bp : option string)
    (yearly : list (YearlyAggregate D)) (a : YearlyAggregate D) (y : Z) :
  spark_run spark file_path e ->
  result e = Py.Returned (bp, yearly) ->
  In a yearly -> ya_year a = Some y ->
  (na_total a = None <->
   forall r, In r (subset_S (load_sales_data spark file_path) bp) ->
             released_in y r = true -> na_sales r = None) /\
  (global_total a = None <->
   forall r, In r (subset_S (load_sales_data spark file_path) bp) ->
             released_in y r = true -> total_sales r = None).
Proof.
  intros Hrun Hres Ha Hy.
  destruct (run_shape Hrun) as [[_ He]|[bp' [years [_ [_ [_ He]]]]]];
    subst e; simpl in Hres; [discriminate Hres|].
  inversion Hres; subst bp' yearly. clear Hres.
  apply in_map_iff in Ha. destruct Ha as [y' [Ea _]]. subst a.
  simpl in Hy. inversion Hy; subst y'. clear Hy.
  assert (Hcol : forall column : SalesRow D -> option D,
    Spark.round (Spark.sum (map column
      (year_rows y (subset_S (load_sales_data spark file_path) bp)))) 2 = None <->
    forall r, In r (subset_S (load_sales_data spark file_path) bp) ->
              released_in y r = true -> column r = None).
  { intro column. rewrite round_null_iff, sum_null_iff. split.
    - intros Hall r Hr Hrel. apply Hall. apply in_map.
      apply List.filter_In. tauto.
    - intros Hall x Hx. apply in_map_iff in Hx. destruct Hx as [r [E Hr]].
      apply List.filter_In in Hr. rewrite <- E. apply Hall; tauto. }
  split; simpl; apply Hcol.
Qed.

(** X6.  A NULL na_total in the returned table never goes unreported:
    the count printed on the second line is then at least 1; when the
    count is 0 every na_total of the table is a value. *)
Theorem null_na_total_is_counted (e : Execution D) (bp : option string)
    (yearly : list (YearlyAggregate D)) :
  spark_run spark file_path e ->
  result e = Py.Returned (bp, yearly) ->
  exists missing,
    nth_error (stdout e) 1 = Some (Print (missing_line missing)) /\
    ((exists a, In a yearly /\ na_total a = None) -> (1 <= missing)%nat) /\
    (missing = 0%nat -> forall a, In a yearly -> exists t, na_total a = Some t).
Proof.
  intros Hrun Hres.
  destruct (run_shape Hrun) as [[_ He]|[bp' [years [_ [_ [Hyears He]]]]]];
    subst e; simpl in Hres; [discriminate Hres|].
  inversion Hres; subst bp' yearly. clear Hres.
  exists (missing_in (subset_S (load_sales_data spark file_path) bp)).
  assert (Hcount : (exists a,
      In a (map (yearly_row (subset_S (load_sales_data spark file_path) bp)) years) /\
      na_total a = None) ->
    (1 <= missing_in (subset_S (load_sales_data spark file_path) bp))%nat).
  { intros [a [Ha Hnull]]. apply in_map_iff in Ha. destruct Ha as [y [Ea Hy]].
    subst a. simpl in Hnull.
    apply round_null_iff in Hnull.
    destruct (proj1 (Hyears y) Hy) as [r [Hr Hrel]].
    assert (Hna : na_sales r = None).
    { apply (proj1 (sum_null_iff _) Hnull). apply in_map.
      apply List.filter_In. tauto. }
    unfold missing_in.
    assert (Hin : In r (List.filter (fun r => negb (Spark.is_value (na_sales r)))
                          (subset_S (load_sales_data spark file_path) bp))).
    { apply List.filter_In. split; [exact Hr|]. rewrite Hna. reflexivity. }
    destruct (List.filter _ _) as [|x l]; [destruct Hin|simpl; lia]. }
  split; [reflexivity|]. split; [exact Hcount|].
  intros Hzero a Ha. destruct (na_total a) as [t|] eqn:Et; [exists t; reflexivity|].
  exfalso. assert (Hone := Hcount (ex_intro _ a (conj Ha Et))). lia.
Qed.

(** X7.  Descending order puts a NULL total last: as soon as one row of
    the window has a na_sales figure, the best publisher's total is a
    value, so a publisher without any figure is never reported ahead
    of one that has a figure, however low. *)
Theorem best_total_is_a_value (e : Execution D) (bp : option string)
    (yearly : list (YearlyAggregate D)) :
  spark_run spark file_path e ->
  result e = Py.Returned (bp, yearly) ->
  (exists r v, In r (load_sales_data spark file_path) /\
               in_window r = true /\ na_sales r = Some v) ->
  exists t, group_total (load_sales_data spark file_path) bp = Some t.
Proof.
  intros Hrun Hres [r [v [Hr [Hw Hv]]]].
  destruct (run_shape Hrun) as [[_ He]|[bp' [years [Hbest [_ [_ He]]]]]];
    subst e; simpl in Hres; [discriminate Hres|].
  inversion Hres; subst bp' yearly. clear Hres.
  destruct Hbest as [_ Hmax]. specialize (Hmax r Hr Hw).
  destruct (group_total (load_sales_data spark file_path) (publisher r)) as [x|] eqn:Ex.
  - destruct (group_total (load_sales_data spark file_path) bp) as [t|].
    + exists t. reflexivity.
    + simpl in Hmax. discriminate Hmax.
  - exfalso. unfold group_total in Ex.
    assert (Hnull := proj1 (sum_null_iff _) Ex (na_sales r)).
    rewrite Hv in Hnull. assert (Hcontra : Some v = None); [|discriminate Hcontra].
    apply Hnull. apply in_map_iff. exists r. split; [exact Hv|].
    apply List.filter_In. split; [exact Hr|].
    rewrite Hw. simpl. unfold in_group. apply publisher_eqb_eq. reflexivity.
Qed.

(** X8.  Every publisher of the window whose total none exceeds has a
    run that reports it: on a tie the engine may report either of the
    tied publishers, the script excludes none of them. *)
Theorem every_top_publisher_has_a_run (k : option string) :
  top_publisher (load_sales_data spark file_path) k ->
  exists e yearly,
    spark_run spark file_path e /\ result e = Py.Returned (k, yearly).
Proof.
  intros Hbest.
  set (table := load_sales_data spark file_path) in *.
  set (top := {| pt_publisher := k; total_na_sales := group_total table k |}).
  assert (Hin : In top (publisherTotals (sales0615DF table))).
  { apply publisherTotals_In. simpl. split; [|reflexivity]. apply Hbest. }
  destruct (in_split _ _ Hin) as [l1 [l2 Esplit]].
  set (rest := Spark.orderBy Spark.desc (@total_na_sales D) (l1 ++ l2)).
  destruct (SparkFacts.orderBy_ordered_by Spark.desc (@total_na_sales D)
              desc_total desc_trans (l1 ++ l2)) as [Hperm Hsorted].
  fold rest in Hperm, Hsorted.
  exists (analyze_ordered (sales0615DF table) (top :: rest)).
  eexists. split; [|reflexivity].
  unfold spark_run. fold table. cbv zeta.
  exists (top :: rest). split; [|reflexivity]. split.
  - rewrite Esplit. apply Permutation_sym.
    apply Permutation_cons_app. apply Permutation_sym. exact Hperm.
  - constructor; [exact Hsorted|].
    apply Forall_forall. intros pt Hpt.
    apply (Permutation_in pt (Permutation_sym Hperm)) in Hpt.
    assert (Hpt' : In pt (publisherTotals (sales0615DF table))).
    { rewrite Esplit. apply in_app_iff. apply in_app_iff in Hpt.
      destruct Hpt; [left|right; right]; assumption. }
    apply publisherTotals_In in Hpt'. destruct Hpt' as [[r [Hr [Hw Ep]]] Et].
    simpl. rewrite Et, <- Ep. apply Hbest; assumption.
Qed.

End Further.

Section Program.

Context {D : Type} `{DoubleOps D}.

Variable getOrCreate : string -> SparkSession D.

(** X9.  The program stops its session exactly when the file at
    [file_csv] has a row in the window, and then as its last act, after
    the three lines and the table.  With no row in the window the
    TypeError of the analysis ends the process: nothing is written, the
    exception is not caught and [spark.stop()] is not reached. *)
Theorem main_stops_session_iff_row_in_window (p : Process D) :
  main_run getOrCreate p ->
  (In Stop (events p) <->
   exists r, In r (load_sales_data (getOrCreate app_name) file_csv) /\
             in_window r = true) /\
  (In Stop (events p) ->
   exit p = Py.Returned tt /\
   exists bp missing yearly,
     events p = [GetOrCreate app_name;
                 Stdout (Print (publisher_line bp));
                 Stdout (Print (missing_line missing));
                 Stdout (Print sales_line);
                 Stdout (Table yearly);
                 Stop]) /\
  (~ In Stop (events p) ->
   p = {| events := [GetOrCreate app_name];
          exit := Py.Raised Py.NoneType_not_subscriptable |}).
Proof.
  intros [e [Hrun Hp]].
  assert (Hshown := fun bp yearly => yearly_sales_within_window
                      (getOrCreate app_name) file_csv e bp yearly Hrun).
  destruct (run_shape Hrun) as [[Hempty He]|[bp [years [Hbest [_ [_ He]]]]]].
  - subst e p. simpl. split; [|split].
    + split.
      * intros [E|[]]. discriminate E.
      * intros [r [Hr Hw]]. exfalso.
        assert (Hin : In r (List.filter in_window
                       (load_sales_data (getOrCreate app_name) file_csv)))
          by (apply List.filter_In; tauto).
        rewrite Hempty in Hin. exact Hin.
    + intros [E|[]]. discriminate E.
    + intros _. reflexivity.
  - destruct (Hshown bp _ (f_equal (@result D) He)) as [_ [_ Htable]].
    subst p. rewrite He in *. simpl in *.
    inversion Htable as [Eshow]. rewrite Eshow.
    split; [|split].
    + split.
      * intros _. destruct Hbest as [[r [Hr [Hw _]]] _]. exists r. tauto.
      * intros _. do 5 right. left. reflexivity.
    + intros _. split; [reflexivity|]. do 3 eexists. reflexivity.
    + intro Hnot. exfalso. apply Hnot. do 5 right. left. reflexivity.
Qed.

End Program.

(** ** Runs on the example tables *)

Import Milli Examples.

(** In the table of A, B and C, only A is a top publisher. *)
Lemma three_publishers_top (k : option string) :
  top_publisher (load_sales_data (session three_publishers) path) k ->
  k = Some "A"%string.
Proof.
  intros [[r [Hr [Hw Ek]]] Hmax].
  simpl in Hr. destruct Hr as [E|[E|[E|[E|[]]]]]; subst r.
  - symmetry. exact Ek.
  - symmetry. exact Ek.
  - exfalso. simpl in Ek. subst k.
    specialize (Hmax (required_columns
      (line (Some "A"%string) (date 2007) (Some 10000%Z) (Some 12000%Z)))
      (or_introl eq_refl) eq_refl).
    vm_compute in Hmax. discriminate Hmax.
  - vm_compute in Hw. discriminate Hw.
Qed.

Lemma three_publishers_unique_top :
  unique_top (load_sales_data (session three_publishers) path).
Proof.
  intros k1 k2 H1 H2.
  rewrite (three_publishers_top k1 H1), (three_publishers_top k2 H2). reflexivity.
Qed.

(** C1, counterexample: on an empty file the run ends in the TypeError
    of subscripting None, which is no NotFound or EmptyResultError. *)
Lemma empty_file_ends_in_TypeError :
  List.filter in_window (load_sales_data (session empty_file) path) = [] /\
  result (analyze_publisher_sales (session empty_file) path) =
    Py.Raised (Py.Exc "TypeError" "'NoneType' object is not subscriptable") /\
  ~ signals_not_found (analyze_publisher_sales (session empty_file) path).
Proof.
  split; [reflexivity|]. split; [reflexivity|].
  intros [ex [Eraised Hclass]].
  vm_compute in Eraised. inversion Eraised; subst ex.
  destruct Hclass as [E|E]; vm_compute in E; discriminate E.
Qed.

Lemma empty_window_raises_TypeError_witness :
  List.filter in_window (load_sales_data (session only_2020) path) = [] /\
  analyze_publisher_sales (session only_2020) path = crashed_on_missing_row /\
  (forall e, spark_run (session only_2020) path e -> e = crashed_on_missing_row) /\
  ~ signals_not_found (analyze_publisher_sales (session only_2020) path).
Proof.
  split; [reflexivity|].
  apply (empty_window_raises_TypeError (session only_2020) path).
  reflexivity.
Defined.

(** C2, counterexample: a file whose only row is of 2020 gives the
    caller no results, the call raises. *)
Lemma only_2020_returns_nothing :
  ~ exists bp yearly,
      result (analyze_publisher_sales (session only_2020) path) =
        Py.Returned (bp, yearly).
Proof.
  intros [bp [yearly E]]. vm_compute in E. discriminate E.
Qed.

Lemma nonempty_window_reports_witness :
  (exists r, In r (load_sales_data (session three_publishers) path) /\
             in_window r = true) /\
  spark_run (session three_publishers) path
    (analyze_publisher_sales (session three_publishers) path) /\
  forall e, spark_run (session three_publishers) path e ->
    exists bp missing yearly,
      stdout e = [Print (publisher_line bp); Print (missing_line missing);
                  Print sales_line; show yearly] /\
      result e = Py.Returned (bp, yearly).
Proof.
  assert (Hrow : exists r, In r (load_sales_data (session three_publishers) path) /\
                           in_window r = true).
  { eexists. split; [left; reflexivity|reflexivity]. }
  split; [exact Hrow|].
  exact (nonempty_window_reports (session three_publishers) path Hrow).
Defined.

Lemma best_publisher_has_maximal_total_witness :
  exists bp yearly,
    result (analyze_publisher_sales (session three_publishers) path) =
      Py.Returned (bp, yearly) /\
    (exists r, In r (load_sales_data (session three_publishers) path) /\
               in_window r = true /\ publisher r = bp) /\
    forall r, In r (load_sales_data (session three_publishers) path) ->
      in_window r = true ->
      Spark.desc (group_total (load_sales_data (session three_publishers) path) bp)
                 (group_total (load_sales_data (session three_publishers) path)
                              (publisher r)) = true.
Proof.
  apply (best_publisher_has_maximal_total (session three_publishers) path).
  - eexists. split; [left; reflexivity|reflexivity].
  - apply analyze_publisher_sales_run.
Defined.

Lemma window_filter_exact_witness :
  differ_outside (load_sales_data (session three_publishers) path)
                 (load_sales_data (session three_publishers') path) /\
  sales0615DF (load_sales_data (session three_publishers) path) =
    sales0615DF (load_sales_data (session three_publishers') path) /\
  analyze_publisher_sales (session three_publishers) path =
    analyze_publisher_sales (session three_publishers') path /\
  (forall e, spark_run (session three_publishers) path e <->
             spark_run (session three_publishers') path e).
Proof.
  assert (Hdiff : differ_outside (load_sales_data (session three_publishers) path)
                                 (load_sales_data (session three_publishers') path)).
  { unfold load_sales_data. simpl.
    apply differ_same.
    apply differ_right.
    { eexists. split; [reflexivity|]. left. reflexivity. }
    apply differ_same. apply differ_same.
    apply differ_left.
    { eexists. split; [reflexivity|]. right. reflexivity. }
    apply differ_nil. }
  split; [exact Hdiff|].
  exact (proj2 (window_filter_exact (session three_publishers) path
                  (session three_publishers') path Hdiff)).
Defined.

Lemma yearly_sales_by_year_witness :
  result (analyze_publisher_sales (session missing_na) path) =
    Py.Returned (Some "A"%string, missing_na_yearly) /\
  StronglySorted
    (fun a b => exists x y, ya_year a = Some x /\ ya_year b = Some y /\ (x < y)%Z)
    missing_na_yearly /\
  (forall a, In a missing_na_yearly ->
     exists y,
       (exists r, In r (subset_S (load_sales_data (session missing_na) path)
                                 (Some "A"%string)) /\
                  released_in y r = true) /\
       ya_year a = Some y /\
       na_total a =
         Spark.round (Spark.sum (map na_sales
           (year_rows y (subset_S (load_sales_data (session missing_na) path)
                                  (Some "A"%string))))) 2 /\
       global_total a =
         Spark.round (Spark.sum (map total_sales
           (year_rows y (subset_S (load_sales_data (session missing_na) path)
                                  (Some "A"%string))))) 2) /\
  (forall r, In r (subset_S (load_sales_data (session missing_na) path)
                            (Some "A"%string)) ->
     exists a, In a missing_na_yearly /\ ya_year a = Spark.year (release_date r)).
Proof.
  split; [reflexivity|].
  apply (yearly_sales_by_year (session missing_na) path
           (analyze_publisher_sales (session missing_na) path)).
  - apply analyze_publisher_sales_run.
  - reflexivity.
Defined.

Lemma missing_count_counts_null_na_sales_witness :
  nth_error (stdout (analyze_publisher_sales (session missing_na) path)) 1 =
    Some (Print (missing_line
      (List.length
         (List.filter (fun r => negb (Spark.is_value (na_sales r)))
            (subset_S (load_sales_data (session missing_na) path)
                      (Some "A"%string)))))) /\
  (forall column : list (option Z),
     Spark.sum column = Spark.sum (List.filter Spark.is_value column)) /\
  (forall before after : list (option Z),
     Spark.sum (before ++ None :: after) = Spark.sum (before ++ after)).
Proof.
  apply (missing_count_counts_null_na_sales (session missing_na) path
           (analyze_publisher_sales (session missing_na) path)
           (Some "A"%string) missing_na_yearly).
  - apply analyze_publisher_sales_run.
  - reflexivity.
Defined.

(** C7, counterexample: A and B tie at 1.0; the order A, B and the
    order B, A are both descending, and the two runs report different
    publishers. *)
Lemma tie_has_two_runs :
  exists e1 e2 y1 y2,
    spark_run (session tie) path e1 /\
    spark_run (session tie) path e2 /\
    result e1 = Py.Returned (Some "A"%string, y1) /\
    result e2 = Py.Returned (Some "B"%string, y2) /\
    e1 <> e2.
Proof.
  exists (analyze_ordered (sales0615DF (load_sales_data (session tie) path)) [tie_A; tie_B]).
  exists (analyze_ordered (sales0615DF (load_sales_data (session tie) path)) [tie_B; tie_A]).
  do 2 eexists.
  split; [|split; [|split; [|split]]].
  - exists [tie_A; tie_B]. split; [split|reflexivity].
    + exact (Permutation_refl [tie_A; tie_B]).
    + repeat constructor.
  - exists [tie_B; tie_A]. split; [split|reflexivity].
    + exact (perm_swap tie_B tie_A []).
    + repeat constructor.
  - reflexivity.
  - reflexivity.
  - intro E. apply (f_equal (@result Z)) in E. vm_compute in E. discriminate E.
Qed.

Lemma unique_top_deterministic_witness :
  unique_top (load_sales_data (session three_publishers) path) /\
  analyze_publisher_sales (session three_publishers) path =
    reported (Some "A"%string) 0 three_publishers_yearly.
Proof.
  split; [exact three_publishers_unique_top|].
  apply (unique_top_deterministic (session three_publishers) path).
  - exact three_publishers_unique_top.
  - apply analyze_publisher_sales_run.
  - exists [ {| pt_publisher := Some "A"%string; total_na_sales := Some 30000%Z |};
             {| pt_publisher := Some "B"%string; total_na_sales := Some 5000%Z |} ].
    split; [split|reflexivity].
    + apply Permutation_refl.
    + repeat constructor.
Defined.

(** C8, counterexample: A sells 0.125 in 2007 and 0.125 in 2008.  Each
    year's na_total is 0.13 and their sum is 0.26, while the sum of the
    na_sales of A in the window is 0.25, which rounded to 2 places is
    0.25. *)
Lemma eighths_round_per_year :
  result (analyze_publisher_sales (session eighths) path) =
    Py.Returned (Some "A"%string, eighths_yearly) /\
  Spark.sum (map (@na_total Z) eighths_yearly) = Some 260%Z /\
  Spark.round (Spark.sum (map na_sales
    (subset_S (load_sales_data (session eighths) path) (Some "A"%string)))) 2 =
    Some 250%Z /\
  Spark.sum (map (@na_total Z) eighths_yearly) <>
  Spark.round (Spark.sum (map na_sales
    (subset_S (load_sales_data (session eighths) path) (Some "A"%string)))) 2.
Proof.
  split; [reflexivity|]. split; [reflexivity|]. split; [reflexivity|].
  intro E. vm_compute in E. discriminate E.
Qed.

Lemma na_totals_sum_yearly_roundings_witness :
  result (analyze_publisher_sales (session eighths) path) =
    Py.Returned (Some "A"%string, eighths_yearly) /\
  exists years,
    StronglySorted Z.lt years /\
    (forall y, In y years <->
       exists r, In r (subset_S (load_sales_data (session eighths) path)
                                (Some "A"%string)) /\
                 released_in y r = true) /\
    Spark.sum (map (@na_total Z) eighths_yearly) =
    Spark.sum (map (fun y =>
                 Spark.round (Spark.sum (map na_sales
                   (year_rows y (subset_S (load_sales_data (session eighths) path)
                                          (Some "A"%string))))) 2)
               years).
Proof.
  split; [reflexivity|].
  apply (na_totals_sum_yearly_roundings (session eighths) path
           (analyze_publisher_sales (session eighths) path)).
  - apply analyze_publisher_sales_run.
  - reflexivity.
Defined.

Lemma null_best_publisher_matches_no_row_witness :
  result (analyze_publisher_sales (session no_publisher) path) =
    Py.Returned (None, []) /\
  bestNADF (sales0615DF (load_sales_data (session no_publisher) path)) None = [] /\
  @nil (YearlyAggregate Z) = [] /\
  analyze_publisher_sales (session no_publisher) path = reported None 0 [].
Proof.
  split; [reflexivity|].
  apply (null_best_publisher_matches_no_row (session no_publisher) path
           (analyze_publisher_sales (session no_publisher) path) []).
  - apply analyze_publisher_sales_run.
  - reflexivity.
Defined.

Lemma all_null_year_has_null_total_witness :
  exists a,
    In a missing_na_yearly /\ ya_year a = Some 2010%Z /\
    ((forall r, In r (subset_S (load_sales_data (session missing_na) path)
                               (Some "A"%string)) ->
                released_in 2010 r = true -> na_sales r = None) ->
     na_total a = None) /\
    ((forall r, In r (subset_S (load_sales_data (session missing_na) path)
                               (Some "A"%string)) ->
                released_in 2010 r = true -> total_sales r = None) ->
     global_total a = None).
Proof.
  apply (all_null_year_has_null_total (session missing_na) path
           (analyze_publisher_sales (session missing_na) path)
           (Some "A"%string) missing_na_yearly 2010%Z).
  - apply analyze_publisher_sales_run.
  - reflexivity.
  - eexists. split; [left; reflexivity|reflexivity].
Defined.

Lemma unused_columns_do_not_matter_witness :
  Forall2 same_required (read_csv (session three_publishers) path)
                        (read_csv (session three_publishers_titled) path) /\
  load_sales_data (session three_publishers) path =
    load_sales_data (session three_publishers_titled) path /\
  analyze_publisher_sales (session three_publishers) path =
    analyze_publisher_sales (session three_publishers_titled) path /\
  (forall e, spark_run (session three_publishers) path e <->
             spark_run (session three_publishers_titled) path e).
Proof.
  assert (Hsame : Forall2 same_required (read_csv (session three_publishers) path)
                          (read_csv (session three_publishers_titled) path)).
  { simpl. repeat (constructor; [repeat split|]). constructor. }
  split; [exact Hsame|].
  exact (unused_columns_do_not_matter (session three_publishers) path
           (session three_publishers_titled) path Hsame).
Defined.

Lemma undated_row_does_not_matter_witness :
  analyze_publisher_sales (session missing_na_undated) path =
    analyze_publisher_sales (session missing_na) path /\
  (forall e, spark_run (session missing_na_undated) path e <->
             spark_run (session missing_na) path e).
Proof.
  apply (undated_row_does_not_matter (session missing_na_undated) path
           (session missing_na) path
           [required_columns (line (Some "A"%string) (date 2010) None (Some 15000%Z))]
           [required_columns (line (Some "A"%string) (date 2011) (Some 7000%Z) (Some 8000%Z))]
           (required_columns (line (Some "B"%string) None (Some 90000%Z) (Some 90000%Z)))).
  - reflexivity.
  - reflexivity.
  - reflexivity.
Defined.

Lemma yearly_sales_within_window_witness :
  (forall a, In a missing_na_yearly ->
     exists y, ya_year a = Some y /\ (2006 <= y <= 2015)%Z) /\
  (List.length missing_na_yearly <= 10)%nat /\
  nth_error (stdout (analyze_publisher_sales (session missing_na) path)) 3 =
    Some (Table missing_na_yearly).
Proof.
  apply (yearly_sales_within_window (session missing_na) path
           (analyze_publisher_sales (session missing_na) path) (Some "A"%string)).
  - apply analyze_publisher_sales_run.
  - reflexivity.
Defined.

Lemma yearly_sales_empty_iff_no_publisher_witness :
  result (analyze_publisher_sales (session no_publisher) path) =
    Py.Returned (None, []) /\
  (@nil (YearlyAggregate Z) = [] <-> @None string = None).
Proof.
  split; [reflexivity|].
  apply (yearly_sales_empty_iff_no_publisher (session no_publisher) path
           (analyze_publisher_sales (session no_publisher) path)).
  - apply analyze_publisher_sales_run.
  - reflexivity.
Defined.

Lemma yearly_total_null_iff_witness :
  (@None Z = None <->
   forall r, In r (subset_S (load_sales_data (session missing_na) path)
                            (Some "A"%string)) ->
             released_in 2010 r = true -> na_sales r = None) /\
  (Some 15000%Z = None <->
   forall r, In r (subset_S (load_sales_data (session missing_na) path)
                            (Some "A"%string)) ->
             released_in 2010 r = true -> total_sales r = None).
Proof.
  apply (yearly_total_null_iff (session missing_na) path
           (analyze_publisher_sales (session missing_na) path)
           (Some "A"%string) missing_na_yearly
           {| ya_year := Some 2010%Z; na_total := None; global_total := Some 15000%Z |}
           2010%Z).
  - apply analyze_publisher_sales_run.
  - reflexivity.
  - left. reflexivity.
  - reflexivity.
Defined.

Lemma null_na_total_is_counted_witness :
  exists missing,
    nth_error (stdout (analyze_publisher_sales (session missing_na) path)) 1 =
      Some (Print (missing_line missing)) /\
    ((exists a, In a missing_na_yearly /\ na_total a = None) -> (1 <= missing)%nat) /\
    (missing = 0%nat ->
     forall a, In a missing_na_yearly -> exists t, na_total a = Some t).
Proof.
  apply (null_na_total_is_counted (session missing_na) path
           (analyze_publisher_sales (session missing_na) path) (Some "A"%string)).
  - apply analyze_publisher_sales_run.
  - reflexivity.
Defined.

Lemma best_total_is_a_value_witness :
  result (analyze_publisher_sales (session no_figure) path) =
    Py.Returned (Some "B"%string,
      [ {| ya_year := Some 2011%Z; na_total := Some (-1000)%Z;
           global_total := Some 8000%Z |} ]) /\
  exists t, group_total (load_sales_data (session no_figure) path)
                        (Some "B"%string) = Some t.
Proof.
  split; [reflexivity|].
  apply (best_total_is_a_value (session no_figure) path
           (analyze_publisher_sales (session no_figure) path) (Some "B"%string)
           [ {| ya_year := Some 2011%Z; na_total := Some (-1000)%Z;
                global_total := Some 8000%Z |} ]).
  - apply analyze_publisher_sales_run.
  - reflexivity.
  - eexists. exists (-1000)%Z. split; [right; left; reflexivity|].
    split; reflexivity.
Defined.

Lemma every_top_publisher_has_a_run_witness :
  top_publisher (load_sales_data (session tie) path) (Some "B"%string) /\
  exists e yearly,
    spark_run (session tie) path e /\
    result e = Py.Returned (Some "B"%string, yearly).
Proof.
  assert (Htop : top_publisher (load_sales_data (session tie) path) (Some "B"%string)).
  { split.
    - eexists. split; [right; left; reflexivity|]. split; reflexivity.
    - intros r [E|[E|[]]] _; subst r; reflexivity. }
  split; [exact Htop|].
  exact (every_top_publisher_has_a_run (session tie) path (Some "B"%string) Htop).
Defined.

Lemma main_stops_session_iff_row_in_window_witness :
  main_run (fun _ => session three_publishers) (main (fun _ => session three_publishers)) /\
  In Stop (events (main (fun _ => session three_publishers))) /\
  exit (main (fun _ => session three_publishers)) = Py.Returned tt /\
  main_run (fun _ => session only_2020) (main (fun _ => session only_2020)) /\
  main (fun _ => session only_2020) =
    {| events := [GetOrCreate app_name];
       exit := Py.Raised Py.NoneType_not_subscriptable |}.
Proof.
  assert (Hrun : forall file : list (Schema Z),
            main_run (fun _ => session file) (main (fun _ => session file))).
  { intro file. eexists. split; [apply analyze_publisher_sales_run|reflexivity]. }
  assert (Hstop : In Stop (events (main (fun _ => session three_publishers)))).
  { do 5 right. left. reflexivity. }
  split; [apply Hrun|]. split; [exact Hstop|]. split; [|split; [apply Hrun|]].
  - apply (main_stops_session_iff_row_in_window (fun _ => session three_publishers)
             (main (fun _ => session three_publishers)) (Hrun three_publishers)).
    exact Hstop.
  - apply (main_stops_session_iff_row_in_window (fun _ => session only_2020)
             (main (fun _ => session only_2020)) (Hrun only_2020)).
    intros [E|[]]. discriminate E.
Defined.
